(** * Portfolio state transition and valuation engine ([main.py])

    A shallow embedding of the trade execution engine
    ([execute_trading_decisions]), the valuation loop of [main], the delta
    engine ([calculate_daily_changes]) and the previous-snapshot selection
    ([get_previous_day_data]), followed by the properties of the
    specification that concern them.

    Modelling conventions.
    - A Python number that holds money or a price is an exact rational
      ([Qc], canonical fractions, Leibniz equality).  Share counts are
      integers ([Z]).  Rounding of binary floating point is not modelled:
      every concrete scenario below uses values on which the float
      arithmetic of the source gives the same results.
    - A [dict] keyed by strings is a [gmap string _]; the insertion order
      of a dict is not recorded.
    - The values read from JSON are typed: a key of an object is either
      absent ([None]) or holds a value of the expected type.  A lookup
      [d[k]] of an absent key raises [KeyError]; [d.get(k, dflt)] does not.
    - [print] appends a line to an explicit output log.
    - The files the program reads and writes are explicit values that are
      passed in and returned. *)

From Stdlib Require Import QArith Qcanon Qabs.
From stdpp Require Import gmap strings list fin_maps numbers pretty.

Open Scope Z_scope.

(** ** Python numbers *)

Module Py.

(** An [int] used in float arithmetic. *)
Definition of_int (z : Z) : Qc := Q2Qc (inject_Z z).

(** [int(x)]: truncation toward zero. *)
Definition int (x : Qc) : Z := Z.quot (Qnum x) (Zpos (Qden x)).

Definition ltb (x y : Qc) : bool :=
  match (x ?= y)%Qc with Lt => true | _ => false end.

Definition leb (x y : Qc) : bool :=
  match (x ?= y)%Qc with Gt => false | _ => true end.

Definition eqb (x y : Qc) : bool :=
  match (x ?= y)%Qc with Eq => true | _ => false end.

(** Nearest integer of a non-negative rational, ties to even: the rounding
    of the [f] presentation type. *)
Definition round_half_even (x : Q) : Z :=
  let n := Qnum x in
  let d := Zpos (Qden x) in
  let q := n / d in
  match 2 * (n mod d) ?= d with
  | Lt => q
  | Gt => q + 1
  | Eq => if Z.even q then q else q + 1
  end.

Definition zfill (k : nat) (s : string) : string :=
  String.concat EmptyString (replicate (k - String.length s) "0"%string)
  +:+ s.

(** [f"{x:.kf}"]. *)
Definition format_f (k : nat) (x : Qc) : string :=
  let scale := 10 ^ Z.of_nat k in
  let n := round_half_even (Qabs x * inject_Z scale) in
  let body :=
    pretty (n / scale) +:+
    match k with
    | O => EmptyString
    | S _ => "." +:+ zfill k (pretty (n mod scale))
    end in
  if ltb x (Q2Qc 0) then "-" +:+ body else body.

(** [f"{n}"] of an [int]. *)
Definition str_int (n : Z) : string := pretty n.

(** A decimal literal with two digits after the point, [cents 47850] is
    [478.50]. *)
Definition cents (c : Z) : Qc := Q2Qc (c # 100).

End Py.

(** ** Exceptions *)

Inductive exn :=
| KeyError (key : string)
| AttributeError (tyname attr : string).

(** [str(e)]. *)
Definition str_exn (e : exn) : string :=
  match e with
  | KeyError key => "'" +:+ key +:+ "'"
  | AttributeError tyname attr =>
      "'" +:+ tyname +:+ "' object has no attribute '" +:+ attr +:+ "'"
  end.

Inductive exc (A : Type) :=
| Ok (a : A)
| Raise (e : exn).

Arguments Ok {A} a.
Arguments Raise {A} e.

(** ** The order queue *)

(** One element of ["execution_queue"]: a JSON object with optional keys. *)
Module Order.
Record t := mk {
  symbol : option string;
  action : option string;
  target_quantity : option Z;
  target_value : option Qc;
  current_quantity : option Z
}.
End Order.

(** The object stored in [trading_decisions.json].  [other] stands for the
    remaining keys, which the program never reads. *)
Record decisions := {
  execution_queue : option (list Order.t);
  claude_decisions_executed : option bool;
  execution_date : option string;
  other : list (string * string)
}.

(** What [json.loads] returned. *)
Inductive document :=
| NotDict (tyname : string)
| Dict (decisions_data : decisions).

(** The state of [trading_decisions.json] when it is opened. *)
Inductive queue_file :=
| NoFile
| Blank
| Unparsable (msg : string)
| Parsed (doc : document).

(** ** Trade execution engine *)

(** The variables the loop of [execute_trading_decisions] updates, and the
    lines it prints. *)
Record locals := {
  holdings : gmap string Z;
  cash : Qc;
  claude_actions : list string;
  printed : list string
}.

(** The line [print(f"✅ Executed: {action_msg}")] writes. *)
Definition executed (action_msg : string) : string :=
  "✅ Executed: " +:+ action_msg.

(** Branch [action == "SELL_ALL"]. *)
Definition sell_all (prices : gmap string Qc) (symbol : string) (st : locals)
  : locals :=
  match holdings st !! symbol with
  | Some qty =>
      if 0 <? qty then
        let shares_to_sell := qty in
        match prices !! symbol with
        | Some price =>
            let proceeds := (Py.of_int shares_to_sell * price)%Qc in
            let action_msg :=
              "SELL ALL " +:+ symbol +:+ ": " +:+ Py.str_int shares_to_sell
              +:+ " shares @ $" +:+ Py.format_f 4 price
              +:+ " = $" +:+ Py.format_f 2 proceeds in
            {| holdings := <[symbol := 0]> (holdings st);
               cash := (cash st + proceeds)%Qc;
               claude_actions := claude_actions st ++ [action_msg];
               printed := printed st ++ [executed action_msg] |}
        | None => st
        end
      else st
  | None => st
  end.

(** Branch [action == "TRIM_TO"], after [target_qty] was read. *)
Definition trim_to (prices : gmap string Qc) (symbol : string)
  (target_qty : Z) (st : locals) : locals :=
  match holdings st !! symbol with
  | Some qty =>
      if target_qty <? qty then
        let shares_to_sell := qty - target_qty in
        match prices !! symbol with
        | Some price =>
            let proceeds := (Py.of_int shares_to_sell * price)%Qc in
            let action_msg :=
              "TRIM " +:+ symbol +:+ " to " +:+ Py.str_int target_qty
              +:+ " shares - $" +:+ Py.format_f 2 proceeds +:+ " proceeds" in
            {| holdings := <[symbol := target_qty]> (holdings st);
               cash := (cash st + proceeds)%Qc;
               claude_actions := claude_actions st ++ [action_msg];
               printed := printed st ++ [executed action_msg] |}
        | None => st
        end
      else st
  | None => st
  end.

(** Branch [action == "BUY_NEW"], after [target_value] was read. *)
Definition buy_new (prices : gmap string Qc) (symbol : string)
  (target_value : Qc) (st : locals) : locals :=
  if Py.ltb (Q2Qc 0) target_value && Py.leb target_value (cash st) then
    match prices !! symbol with
    | Some price =>
        if Py.ltb (Q2Qc 0) price then
          let shares_to_buy := Py.int (target_value / price)%Qc in
          let cost := (Py.of_int shares_to_buy * price)%Qc in
          if Py.leb cost (cash st) then
            let action_msg :=
              "BUY " +:+ symbol +:+ ": " +:+ Py.str_int shares_to_buy
              +:+ " shares @ $" +:+ Py.format_f 4 price
              +:+ " = $" +:+ Py.format_f 2 cost in
            {| holdings :=
                 <[symbol := default 0 (holdings st !! symbol) + shares_to_buy]>
                   (holdings st);
               cash := (cash st - cost)%Qc;
               claude_actions := claude_actions st ++ [action_msg];
               printed := printed st ++ [executed action_msg] |}
          else st
        else st
    | None => st
    end
  else st.

(** Branch [action == "HOLD"]. *)
Definition hold (order : Order.t) (symbol : string) (st : locals) : locals :=
  {| holdings := holdings st;
     cash := cash st;
     claude_actions := claude_actions st;
     printed := printed st ++
       ["📊 HOLD " +:+ symbol +:+ ": "
        +:+ Py.str_int (default 0 (Order.current_quantity order))
        +:+ " shares"] |}.

(** The body of [for order in decisions_data["execution_queue"]]. *)
Definition execute_order (prices : gmap string Qc) (order : Order.t)
  (st : locals) : exc locals :=
  match Order.symbol order with
  | None => Raise (KeyError "symbol")
  | Some symbol =>
      match Order.action order with
      | None => Raise (KeyError "action")
      | Some action =>
          if String.eqb action "SELL_ALL" then Ok (sell_all prices symbol st)
          else if String.eqb action "TRIM_TO" then
            match Order.target_quantity order with
            | None => Raise (KeyError "target_quantity")
            | Some target_qty => Ok (trim_to prices symbol target_qty st)
            end
          else if String.eqb action "BUY_NEW" then
            Ok (buy_new prices symbol
                  (default (Q2Qc 0) (Order.target_value order)) st)
          else if String.eqb action "HOLD" then Ok (hold order symbol st)
          else Ok st
      end
  end.

(** The [for] loop: it stops at the first order that raises, and the
    variables keep the values they had at that point. *)
Fixpoint execute_queue (prices : gmap string Qc) (queue : list Order.t)
  (st : locals) : locals * option exn :=
  match queue with
  | [] => (st, None)
  | order :: rest =>
      match execute_order prices order st with
      | Ok st' => execute_queue prices rest st'
      | Raise e => (st, Some e)
      end
  end.

(** What a call of [execute_trading_decisions] leaves behind: the returned
    triple, the queue file and the printed lines. *)
Record outcome := {
  ret_holdings : gmap string Z;
  ret_actions : list string;
  ret_cash : Qc;
  file_after : queue_file;
  output : list string
}.

(** [return holdings, claude_actions, cash], with the queue file as it is
    at that point. *)
Definition returns (file : queue_file) (st : locals) : outcome :=
  {| ret_holdings := holdings st;
     ret_actions := claude_actions st;
     ret_cash := cash st;
     file_after := file;
     output := printed st |}.

(** [print(line)]. *)
Definition say (line : string) (st : locals) : locals :=
  {| holdings := holdings st;
     cash := cash st;
     claude_actions := claude_actions st;
     printed := printed st ++ [line] |}.

(** The three assignments before [save_json]. *)
Definition mark_executed (date : string) (decisions_data : decisions)
  : decisions :=
  {| execution_queue := Some [];
     claude_decisions_executed := Some true;
     execution_date := Some date;
     other := other decisions_data |}.

(** [execute_trading_decisions(holdings, prices, date, cash)], with the
    state of [trading_decisions.json] as a further argument.  The [except]
    clauses are the branches that return [file] unchanged. *)
Definition execute_trading_decisions (holdings : gmap string Z)
  (prices : gmap string Qc) (date : string) (cash : Qc) (file : queue_file)
  : outcome :=
  let st := {| holdings := holdings; cash := cash;
               claude_actions := []; printed := [] |} in
  match file with
  | NoFile => returns file (say "No trading decisions file found" st)
  | Blank => returns file (say "Trading decisions file is empty" st)
  | Unparsable msg =>
      returns file
        (say "Please check the JSON syntax"
           (say ("JSON decode error in trading_decisions.json: " +:+ msg) st))
  | Parsed (NotDict tyname) =>
      returns file
        (say ("Error executing trading decisions: "
              +:+ str_exn (AttributeError tyname "get")) st)
  | Parsed (Dict decisions_data) =>
      match execution_queue decisions_data with
      | None | Some [] => returns file (say "No pending trading decisions" st)
      | Some queue =>
          match execute_queue prices queue
                  (say "🤖 Checking Claude's trading decisions..." st) with
          | (st', None) =>
              returns (Parsed (Dict (mark_executed date decisions_data))) st'
          | (st', Some e) =>
              returns file
                (say ("Error executing trading decisions: " +:+ str_exn e) st')
          end
      end
  end.

(** ** Previous-snapshot selection *)

(** A numeric cell of the history table as pandas reads it. *)
Inductive cell :=
| NaN
| Num (x : Qc).

(** One data row of [data/portfolio_history.csv]: its date and its numeric
    columns by name.  A name that [columns] does not map is a column the
    table does not have. *)
Record history_row := {
  row_date : string;
  columns : gmap string cell
}.

(** The state of [data/portfolio_history.csv]: absent, rejected by
    [pd.read_csv], or a table of data rows. *)
Inductive history_file :=
| NoHistory
| Unreadable (msg : string)
| Table (df : list history_row).

Definition SYMBOLS : list string :=
  ["GEVO"; "FEIM"; "ARQ"; "UPXI"; "SERV"; "MYOMO"; "CABA"]%string.

(** The dict that [get_previous_day_data] returns. *)
Module Previous.
Record t := mk {
  prices : gmap string Qc;
  quantities : gmap string Qc;
  total_value : cell
}.
End Previous.

(** [df.iloc[-2]] when there are two rows or more, [df.iloc[-1]] otherwise. *)
Definition select_prev_row (df : list history_row) : option history_row :=
  if (2 <=? length df)%nat then df !! (length df - 2)%nat
  else df !! (length df - 1)%nat.

(** The body of [for symbol in symbols] of [get_previous_day_data]. *)
Definition read_symbol (prev_row : history_row)
  (acc : gmap string Qc * gmap string Qc) (symbol : string)
  : gmap string Qc * gmap string Qc :=
  let price_col := symbol +:+ "_price" in
  let qty_col := symbol +:+ "_qty" in
  match columns prev_row !! price_col, columns prev_row !! qty_col with
  | Some (Num price), Some (Num qty) =>
      if Py.ltb (Q2Qc 0) qty
      then (<[symbol := price]> acc.1, <[symbol := qty]> acc.2)
      else acc
  | _, _ => acc
  end.

(** The dict built from [prev_row]; a table without a [total_value] column
    gives the total ["0"]. *)
Definition previous_of_row (prev_row : history_row) : Previous.t :=
  let '(prices, quantities) := foldl (read_symbol prev_row) (∅, ∅) SYMBOLS in
  Previous.mk prices quantities
    (default (Num (Q2Qc 0)) (columns prev_row !! "total_value")).

(** [get_previous_day_data()], with the state of the history file as its
    argument.  Every exception is caught and gives [None]. *)
Definition get_previous_day_data (csv : history_file) : option Previous.t :=
  match csv with
  | NoHistory => None
  | Unreadable _ => None
  | Table df =>
      if (length df <? 1)%nat then None
      else previous_of_row <$> select_prev_row df
  end.

(** ** Delta engine *)

Module Current.
Record t := mk {
  date : string;
  prices : gmap string Qc;
  quantities : gmap string Z;
  total_value : Qc
}.
End Current.

Record change := {
  price_change : Qc;
  price_change_pct : Qc;
  value_change : Qc
}.

Record portfolio_change := {
  total_change : cell;
  total_change_pct : cell
}.

Record delta_report := {
  individual : gmap string change;
  portfolio : portfolio_change
}.

(** The loop [for symbol in current_data["prices"]].  The items are visited
    in the order of [map_to_list]; [current_data["quantities"][symbol]]
    raises [KeyError] when the symbol has no quantity. *)
Fixpoint individual_loop (items : list (string * Qc))
  (previous_prices : gmap string Qc) (quantities : gmap string Z)
  (individual_changes : gmap string change) : exc (gmap string change) :=
  match items with
  | [] => Ok individual_changes
  | (symbol, current_price) :: rest =>
      match previous_prices !! symbol with
      | Some prev_price =>
          match quantities !! symbol with
          | Some current_qty =>
              let price_change := (current_price - prev_price)%Qc in
              let price_change_pct :=
                if Py.ltb (Q2Qc 0) prev_price
                then (price_change / prev_price * Q2Qc 100)%Qc
                else Q2Qc 0 in
              let value_change := (price_change * Py.of_int current_qty)%Qc in
              individual_loop rest previous_prices quantities
                (<[symbol := {| price_change := price_change;
                                price_change_pct := price_change_pct;
                                value_change := value_change |}]>
                   individual_changes)
          | None => Raise (KeyError symbol)
          end
      | None =>
          individual_loop rest previous_prices quantities individual_changes
      end
  end.

(** The portfolio part of the report; arithmetic on NaN gives NaN and
    [nan > 0] is false. *)
Definition portfolio_delta (current_total : Qc) (prev_total : cell)
  : portfolio_change :=
  match prev_total with
  | NaN => {| total_change := NaN; total_change_pct := Num (Q2Qc 0) |}
  | Num prev =>
      let total_change := (current_total - prev)%Qc in
      {| total_change := Num total_change;
         total_change_pct :=
           if Py.ltb (Q2Qc 0) prev
           then Num (total_change / prev * Q2Qc 100)%Qc
           else Num (Q2Qc 0) |}
  end.

(** [calculate_daily_changes(current_data, previous_data)].  [str] and
    [float] of the totals cancel out. *)
Definition calculate_daily_changes (current_data : Current.t)
  (previous_data : option Previous.t) : exc (option delta_report) :=
  match previous_data with
  | None => Ok None
  | Some previous_data =>
      match individual_loop (map_to_list (Current.prices current_data))
              (Previous.prices previous_data)
              (Current.quantities current_data) ∅ with
      | Raise e => Raise e
      | Ok individual_changes =>
          Ok (Some {| individual := individual_changes;
                      portfolio :=
                        portfolio_delta (Current.total_value current_data)
                          (Previous.total_value previous_data) |})
      end
  end.

(** ** The run: prices, execution, valuation, persistence *)

(** The dict written to [docs/latest.json]. *)
Module Portfolio.
Record t := mk {
  date : string;
  cash : string;
  total_value : string;
  prices : gmap string Qc;
  quantities : gmap string Z;
  values : gmap string string;
  actions : option string;
  daily_changes : option delta_report;
  claude_decisions_executed : bool
}.
End Portfolio.

(** The environment variable, the price source, the clock and the files. *)
Record world := {
  ALPHAVANTAGE_API_KEY : option string;
  get_alpha_vantage_price : string -> string -> option Qc;
  today : string;
  holdings_json : option (gmap string Z);
  cash_json : option (option Qc);
  trading_decisions_json : queue_file;
  portfolio_history_csv : history_file;
  latest_json : option Portfolio.t
}.

Inductive run :=
| Exited (code : Z) (after : world)
| Crashed (e : exn) (after : world).

(** The holdings and the cash [main] starts from when the state files are
    missing. *)
Definition initial_holdings : gmap string Z :=
  <["GEVO" := 199]> (<["FEIM" := 10]> (<["ARQ" := 37]> (<["UPXI" := 17]>
  (<["SERV" := 0]> (<["MYOMO" := 0]> (<["CABA" := 0]> ∅)))))).

Definition initial_cash : Qc := Py.cents 18000.

(** The body of the loop that fills [prices]; [if price:] rejects [None]
    and [0.0]. *)
Definition fetch_step (get_price : string -> option Qc)
  (prices : gmap string Qc) (symbol : string) : gmap string Qc :=
  match get_price symbol with
  | Some price =>
      if Py.eqb price (Q2Qc 0) then prices else <[symbol := price]> prices
  | None => prices
  end.

Definition fetch_prices (get_price : string -> option Qc) : gmap string Qc :=
  foldl (fetch_step get_price) ∅ SYMBOLS.

(** [k in holdings and holdings[k] > 0]. *)
Definition held (holdings : gmap string Z) (k : string) : bool :=
  match holdings !! k with
  | Some v => 0 <? v
  | None => false
  end.

(** The body of the valuation loop of [main]. *)
Definition valuation_step (holdings : gmap string Z) (prices : gmap string Qc)
  (acc : gmap string string * Qc) (symbol : string)
  : gmap string string * Qc :=
  match holdings !! symbol, prices !! symbol with
  | Some qty, Some price =>
      if 0 <? qty then
        let value := (Py.of_int qty * price)%Qc in
        (<[symbol := Py.format_f 2 value]> acc.1, (acc.2 + value)%Qc)
      else (<[symbol := "0.00"%string]> acc.1, acc.2)
  | _, _ => (<[symbol := "0.00"%string]> acc.1, acc.2)
  end.

(** [values] and [total_value] after the valuation loop. *)
Definition valuation (holdings : gmap string Z) (prices : gmap string Qc)
  (cash : Qc) : gmap string string * Qc :=
  foldl (valuation_step holdings prices) (∅, cash) SYMBOLS.

(** [{k: v for k, v in d.items() if k in holdings and holdings[k] > 0}]. *)
Definition held_items {A} (holdings : gmap string Z) (d : gmap string A)
  : gmap string A :=
  filter (fun kv => held holdings kv.1 = true) d.

(** [{k: v for k, v in holdings.items() if v > 0}]. *)
Definition positive_items (holdings : gmap string Z) : gmap string Z :=
  filter (fun kv => 0 < kv.2) holdings.

(** The head of a list, as [claude_actions[0] if claude_actions else None]. *)
Definition first_action (claude_actions : list string) : option string :=
  match claude_actions with
  | [] => None
  | a :: _ => Some a
  end.

(** [bool(claude_actions)]. *)
Definition truthy {A} (l : list A) : bool :=
  match l with
  | [] => false
  | _ :: _ => true
  end.

(** The numeric columns of [csv_row].  The [_value] columns, which nothing
    reads back, are left out. *)
Definition csv_columns (holdings : gmap string Z) (prices : gmap string Qc)
  (total_value cash : Qc) : gmap string cell :=
  foldl (fun csv_row symbol =>
           <[symbol +:+ "_qty" :=
               Num (Py.of_int (default 0 (holdings !! symbol)))]>
             (<[symbol +:+ "_price" :=
                  Num (default (Q2Qc 0) (prices !! symbol))]> csv_row))
        (<["cash" := Num cash]> (<["total_value" := Num total_value]> ∅))
        SYMBOLS.

(** Appending one row to the history.  A file that pandas rejects stays
    rejected. *)
Definition append_row (csv : history_file) (row : history_row)
  : history_file :=
  match csv with
  | NoHistory => Table [row]
  | Unreadable msg => Unreadable msg
  | Table df => Table (df ++ [row])
  end.

(** [os.environ.get("ALPHAVANTAGE_API_KEY")] when it is truthy: an unset
    variable and an empty one both stop the run. *)
Definition api_key_set (key : option string) : option string :=
  match key with
  | Some EmptyString => None
  | _ => key
  end.

(** [main], without the markdown report and its own [print] lines. *)
Definition main (w : world) : run :=
  match api_key_set (ALPHAVANTAGE_API_KEY w) with
  | None => Exited 1 w
  | Some API_KEY =>
      let holdings := default initial_holdings (holdings_json w) in
      let cash :=
        match cash_json w with
        | Some cash_data => default (Q2Qc 0) cash_data
        | None => initial_cash
        end in
      let prices := fetch_prices (fun s => get_alpha_vantage_price w s API_KEY) in
      let current_date := today w in
      let r := execute_trading_decisions holdings prices current_date cash
                 (trading_decisions_json w) in
      let holdings := ret_holdings r in
      let claude_actions := ret_actions r in
      let cash := ret_cash r in
      let '(values, total_value) := valuation holdings prices cash in
      let previous_data := get_previous_day_data (portfolio_history_csv w) in
      let current_data :=
        Current.mk current_date (held_items holdings prices)
          (positive_items holdings) total_value in
      match calculate_daily_changes current_data previous_data with
      | Raise e =>
          Crashed e
            {| ALPHAVANTAGE_API_KEY := ALPHAVANTAGE_API_KEY w;
               get_alpha_vantage_price := get_alpha_vantage_price w;
               today := today w;
               holdings_json := holdings_json w;
               cash_json := cash_json w;
               trading_decisions_json := file_after r;
               portfolio_history_csv := portfolio_history_csv w;
               latest_json := latest_json w |}
      | Ok daily_changes =>
          let portfolio_data :=
            Portfolio.mk current_date (Py.format_f 2 cash)
              (Py.format_f 2 total_value)
              (held_items holdings prices) (positive_items holdings)
              (held_items holdings values)
              (first_action claude_actions) daily_changes
              (truthy claude_actions) in
          Exited 0
            {| ALPHAVANTAGE_API_KEY := ALPHAVANTAGE_API_KEY w;
               get_alpha_vantage_price := get_alpha_vantage_price w;
               today := today w;
               holdings_json := Some holdings;
               cash_json := Some (Some cash);
               trading_decisions_json := file_after r;
               portfolio_history_csv :=
                 append_row (portfolio_history_csv w)
                   {| row_date := current_date;
                      columns := csv_columns holdings prices total_value cash |};
               latest_json := Some portfolio_data |}
      end
  end.

(** ** The valuation of the specification *)

(** [holdings[s] * prices[s]] for a symbol that is held and priced. *)
Definition position_value (holdings : gmap string Z) (prices : gmap string Qc)
  (s : string) : Qc :=
  (Py.of_int (default 0%Z (holdings !! s)) * default (Q2Qc 0) (prices !! s))%Qc.

(** The symbols [s] with [holdings[s] > 0] and a known price. *)
Definition held_and_priced (holdings : gmap string Z)
  (prices : gmap string Qc) : gset string :=
  dom (held_items holdings prices).

(** The sum of a list of numbers. *)
Definition sum_Qc (l : list Qc) : Qc := foldr Qcplus (Q2Qc 0) l.

(** [cash + Σ(holdings[s] * prices[s] for s with holdings[s] > 0 and
    prices[s] known)], the sum taken over the set of such symbols. *)
Definition spec_total_value (holdings : gmap string Z)
  (prices : gmap string Qc) (cash : Qc) : Qc :=
  (cash + sum_Qc (position_value holdings prices
                    <$> elements (held_and_priced holdings prices)))%Qc.

(** ** Orders and queue files of the scenarios *)

Definition SELL_ALL (symbol : string) : Order.t :=
  Order.mk (Some symbol) (Some "SELL_ALL"%string) None None None.

Definition TRIM_TO (symbol : string) (target_quantity : Z) : Order.t :=
  Order.mk (Some symbol) (Some "TRIM_TO"%string) (Some target_quantity)
    None None.

Definition BUY_NEW (symbol : string) (target_value : Qc) : Order.t :=
  Order.mk (Some symbol) (Some "BUY_NEW"%string) None (Some target_value)
    None.

Definition HOLD (symbol : string) (current_quantity : Z) : Order.t :=
  Order.mk (Some symbol) (Some "HOLD"%string) None None
    (Some current_quantity).

(** A queue file that holds the given pending orders and no marker. *)
Definition pending (queue : list Order.t) : queue_file :=
  Parsed (Dict {| execution_queue := Some queue;
                  claude_decisions_executed := Some false;
                  execution_date := None;
                  other := [] |}).

(** ** The data model of the specification *)

(** Holdings: share counts are never negative. *)
Definition nonneg_holdings (holdings : gmap string Z) : Prop :=
  forall s q, holdings !! s = Some q -> 0 <= q.

(** PriceMap: every known price is positive. *)
Definition positive_prices (prices : gmap string Qc) : Prop :=
  forall s p, prices !! s = Some p -> (Q2Qc 0 < p)%Qc.

(** Order: the target of a TRIM_TO is never negative. *)
Definition nonneg_target (o : Order.t) : Prop :=
  Order.action o = Some "TRIM_TO"%string ->
  forall t, Order.target_quantity o = Some t -> 0 <= t.

(** The pending orders of a queue file; none when the file has no readable
    pending list. *)
Definition queue_of (file : queue_file) : list Order.t :=
  match file with
  | Parsed (Dict decisions_data) =>
      default [] (execution_queue decisions_data)
  | _ => []
  end.

(** The state the loop starts from. *)
Definition entry (holdings : gmap string Z) (cash : Qc) : locals :=
  say "🤖 Checking Claude's trading decisions..."
    {| holdings := holdings; cash := cash;
       claude_actions := []; printed := [] |}.

(** An order that has every key the loop body reads with [order[...]]. *)
Definition complete (o : Order.t) : Prop :=
  is_Some (Order.symbol o) /\ is_Some (Order.action o) /\
  (Order.action o = Some "TRIM_TO"%string ->
   is_Some (Order.target_quantity o)).

(** Holdings and cash of the loop variables are not negative. *)
Definition nonneg_state (st : locals) : Prop :=
  nonneg_holdings (holdings st) /\ (Q2Qc 0 <= cash st)%Qc.

(** What one round of the valuation loop adds to [total_value]. *)
Definition contribution (holdings : gmap string Z) (prices : gmap string Qc)
  (symbol : string) : Qc :=
  match holdings !! symbol, prices !! symbol with
  | Some qty, Some price =>
      if 0 <? qty then (Py.of_int qty * price)%Qc else Q2Qc 0
  | _, _ => Q2Qc 0
  end.

(** ** The stages of a run of [main] *)

Definition start_holdings (w : world) : gmap string Z :=
  default initial_holdings (holdings_json w).

Definition start_cash (w : world) : Qc :=
  match cash_json w with
  | Some cash_data => default (Q2Qc 0) cash_data
  | None => initial_cash
  end.

Definition run_prices (w : world) (API_KEY : string) : gmap string Qc :=
  fetch_prices (fun s => get_alpha_vantage_price w s API_KEY).

Definition run_engine (w : world) (API_KEY : string) : outcome :=
  execute_trading_decisions (start_holdings w) (run_prices w API_KEY)
    (today w) (start_cash w) (trading_decisions_json w).

Definition run_current (w : world) (API_KEY : string) : Current.t :=
  let r := run_engine w API_KEY in
  Current.mk (today w)
    (held_items (ret_holdings r) (run_prices w API_KEY))
    (positive_items (ret_holdings r))
    (valuation (ret_holdings r) (run_prices w API_KEY) (ret_cash r)).2.

(** ** A run with two sales *)

(** The price source of the example: three symbols are quoted. *)
Definition example_quotes (symbol API_KEY : string) : option Qc :=
  if String.eqb symbol "GEVO" then Some (Py.cents 150)
  else if String.eqb symbol "ARQ" then Some (Py.cents 500)
  else if String.eqb symbol "FEIM" then Some (Py.cents 3025)
  else None.

(** A first run: no state files, no history, two SELL_ALL orders pending. *)
Definition example_world : world :=
  {| ALPHAVANTAGE_API_KEY := Some "demo"%string;
     get_alpha_vantage_price := example_quotes;
     today := "2025-08-19";
     holdings_json := None;
     cash_json := None;
     trading_decisions_json := pending [SELL_ALL "GEVO"; SELL_ALL "ARQ"];
     portfolio_history_csv := NoHistory;
     latest_json := None |}.

(** ** A run on the day after a single recorded day *)

(** The only row of the history: GEVO was at [1.00], the total at
    [483.00]. *)
Definition example_row : history_row :=
  {| row_date := "2025-08-18";
     columns :=
       <["total_value"%string := Num (Py.cents 48300)]>
       (<["cash"%string := Num (Py.cents 18000)]>
       (<["GEVO_price"%string := Num (Py.cents 100)]>
       (<["GEVO_qty"%string := Num (Py.of_int 199)]> ∅))) |}.

Definition example_next_day : world :=
  {| ALPHAVANTAGE_API_KEY := Some "demo"%string;
     get_alpha_vantage_price := example_quotes;
     today := "2025-08-19";
     holdings_json := None;
     cash_json := None;
     trading_decisions_json := NoFile;
     portfolio_history_csv := Table [example_row];
     latest_json := None |}.

(** The snapshot a run leaves in [docs/latest.json]. *)
Definition snapshot_of (result : run) : option Portfolio.t :=
  match result with
  | Exited _ after => latest_json after
  | Crashed _ after => latest_json after
  end.

(** A per-symbol change and a portfolio change that are all zero. *)
Definition zero_change : change :=
  {| price_change := Q2Qc 0;
     price_change_pct := Q2Qc 0;
     value_change := Q2Qc 0 |}.

Definition zero_portfolio_change : portfolio_change :=
  {| total_change := Num (Q2Qc 0); total_change_pct := Num (Q2Qc 0) |}.

(** ** Definitions for the further properties *)

(** The total the valuation loop of [main] computes from the variables of
    the engine. *)
Definition total_of (prices : gmap string Qc) (st : locals) : Qc :=
  (valuation (holdings st) prices (cash st)).2.

(** The files and the environment a run leaves behind. *)
Definition world_after (result : run) : world :=
  match result with
  | Exited _ after => after
  | Crashed _ after => after
  end.

(** The world after the run with two sales. *)
Definition example_after : world := world_after (main example_world).

(** ** The price source ([get_alpha_vantage_price]) *)

Module AlphaVantage.

(** The value under ["05. price"]: a text that [float] accepts, with the
    number it denotes, or a text on which [float] raises [ValueError] with
    the given message. *)
Inductive price_text :=
| Float (price : Qc)
| NotFloat (err : string).

(** [data = response.json()], an object with optional keys.  The object
    under ["Global Quote"] has an optional key ["05. price"].  [shown] is
    the text [{data}] prints. *)
Record data := mk {
  global_quote : option (option price_text);
  error_message : option string;
  note : option string;
  shown : string
}.

(** What [requests.get(url, params=params)] followed by [response.json()]
    gives: an exception with its text, or the decoded object. *)
Inductive reply :=
| Fails (err : string)
| Json (d : data).

(** The returned price, the tickers that were requested, in order, and the
    lines that were printed. *)
Record result := {
  price : option Qc;
  requested : list string;
  printed : list string
}.

(** [data["Global Quote"]["05. price"]] when
    ["Global Quote" in data and "05. price" in data["Global Quote"]]. *)
Definition quoted (d : data) : option price_text :=
  match global_quote d with
  | Some (Some text) => Some text
  | _ => None
  end.

(** The [except Exception as e] clause. *)
Definition failed (symbol : string) (requested : list string)
  (printed : list string) (err : string) : result :=
  {| price := None;
     requested := requested;
     printed := printed ++ ["Error fetching " +:+ symbol +:+ ": " +:+ err] |}.

(** [get_alpha_vantage_price(symbol, api_key)]; [http ticker api_key] is the
    outcome of the request for [ticker]. *)
Definition get_alpha_vantage_price (http : string -> string -> reply)
  (symbol api_key : string) : result :=
  match http symbol api_key with
  | Fails err => failed symbol [symbol] [] err
  | Json d =>
      match quoted d with
      | Some (Float price) =>
          {| price := Some price; requested := [symbol]; printed := [] |}
      | Some (NotFloat err) => failed symbol [symbol] [] err
      | None =>
          match error_message d with
          | Some msg =>
              {| price := None; requested := [symbol];
                 printed := ["API Error for " +:+ symbol +:+ ": " +:+ msg] |}
          | None =>
              match note d with
              | Some msg =>
                  {| price := None; requested := [symbol];
                     printed :=
                       ["API Limit for " +:+ symbol +:+ ": " +:+ msg] |}
              | None =>
                  let unexpected :=
                    "Unexpected response for " +:+ symbol +:+ ": "
                    +:+ shown d in
                  if String.eqb symbol "MYOMO" then
                    match http "MYO"%string api_key with
                    | Fails err =>
                        failed symbol [symbol; "MYO"%string] [unexpected] err
                    | Json d2 =>
                        match quoted d2 with
                        | Some (Float price) =>
                            {| price := Some price;
                               requested := [symbol; "MYO"%string];
                               printed :=
                                 [unexpected;
                                  "Found " +:+ symbol +:+ " as MYO: $"
                                  +:+ Py.format_f 4 price] |}
                        | Some (NotFloat err) =>
                            failed symbol [symbol; "MYO"%string]
                              [unexpected] err
                        | None =>
                            {| price := None;
                               requested := [symbol; "MYO"%string];
                               printed := [unexpected] |}
                        end
                    end
                  else
                    {| price := None; requested := [symbol];
                       printed := [unexpected] |}
              end
          end
      end
  end.

End AlphaVantage.

(** The prices [main] collects when the price source is the function
    above. *)
Definition collected_prices (http : string -> string -> AlphaVantage.reply)
  (API_KEY : string) : gmap string Qc :=
  fetch_prices
    (fun symbol =>
       AlphaVantage.price
         (AlphaVantage.get_alpha_vantage_price http symbol API_KEY)).

(** The entry of the delta report for one symbol, from its current price,
    its previous price and its current quantity. *)
Definition change_of (current_price prev_price : Qc) (current_qty : Z)
  : change :=
  {| price_change := (current_price - prev_price)%Qc;
     price_change_pct :=
       if Py.ltb (Q2Qc 0) prev_price
       then ((current_price - prev_price) / prev_price * Q2Qc 100)%Qc
       else Q2Qc 0;
     value_change :=
       ((current_price - prev_price) * Py.of_int current_qty)%Qc |}.

(** ** The markdown report of [main] *)

(** The body of the loop that adds one line per position. *)
Definition report_position (holdings : gmap string Z)
  (prices : gmap string Qc) (report_lines : list string) (symbol : string)
  : list string :=
  match holdings !! symbol with
  | Some qty =>
      if 0 <? qty then
        match prices !! symbol with
        | Some price =>
            let value := (Py.of_int qty * price)%Qc in
            report_lines ++
            ["- " +:+ symbol +:+ ": close " +:+ Py.format_f 4 price
             +:+ ", qty " +:+ Py.str_int qty
             +:+ ", value $" +:+ Py.format_f 2 value]
        | None => report_lines
        end
      else report_lines
  | None => report_lines
  end.

(** [report_lines] as it is when it is joined and written to
    [docs/latest_report.md]. *)
Definition report_lines (current_date : string) (holdings : gmap string Z)
  (prices : gmap string Qc) (cash total_value : Qc)
  (claude_actions : list string) : list string :=
  let report_lines :=
    ["# Portfolio Report"%string;
     "**As of (latest close)**: " +:+ current_date;
     EmptyString] in
  let report_lines :=
    foldl (report_position holdings prices) report_lines SYMBOLS in
  let report_lines :=
    report_lines ++
    [EmptyString;
     "Cash: $" +:+ Py.format_f 2 cash;
     "**Total value**: $" +:+ Py.format_f 2 total_value] in
  if truthy claude_actions then
    foldl (fun report_lines action => report_lines ++ ["- " +:+ action])
      (report_lines ++ [EmptyString; "## Recent Actions"%string; EmptyString])
      claude_actions
  else report_lines.

(** The report of a run of [main]. *)
Definition run_report (w : world) (API_KEY : string) : list string :=
  let r := run_engine w API_KEY in
  let prices := run_prices w API_KEY in
  report_lines (today w) (ret_holdings r) prices (ret_cash r)
    (valuation (ret_holdings r) prices (ret_cash r)).2 (ret_actions r).

(** * Properties *)

(** ** Arithmetic of the embedded numbers *)

Section PyFacts.

Implicit Types x y : Qc.

Lemma ltb_lt x y : Py.ltb x y = true <-> (x < y)%Qc.
Proof.
  unfold Py.ltb. rewrite Qclt_alt.
  destruct (x ?= y)%Qc; split; congruence.
Qed.

Lemma leb_le x y : Py.leb x y = true <-> (x <= y)%Qc.
Proof.
  unfold Py.leb. rewrite Qcle_alt.
  destruct (x ?= y)%Qc; split; congruence.
Qed.

Lemma eqb_eq x y : Py.eqb x y = true <-> x = y.
Proof.
  unfold Py.eqb. rewrite Qceq_alt.
  destruct (x ?= y)%Qc; split; congruence.
Qed.

Lemma ltb_ge x y : Py.ltb x y = false <-> (y <= x)%Qc.
Proof.
  rewrite <- not_true_iff_false, ltb_lt. split.
  - apply Qcnot_lt_le.
  - apply Qcle_not_lt.
Qed.

Lemma leb_gt x y : Py.leb x y = false <-> (y < x)%Qc.
Proof.
  rewrite <- not_true_iff_false, leb_le. split.
  - apply Qcnot_le_lt.
  - apply Qclt_not_le.
Qed.

Lemma of_int_le (a b : Z) : a <= b -> (Py.of_int a <= Py.of_int b)%Qc.
Proof.
  intros H. unfold Py.of_int, Qcle. simpl.
  rewrite !Qred_correct. unfold Qle. simpl. lia.
Qed.

Lemma of_int_nonneg (z : Z) : 0 <= z -> (Q2Qc 0 <= Py.of_int z)%Qc.
Proof. intros H. apply (of_int_le 0 z H). Qed.

Lemma of_int_0 : Py.of_int 0 = Q2Qc 0.
Proof. reflexivity. Qed.

Lemma int_nonneg x : (Q2Qc 0 <= x)%Qc -> 0 <= Py.int x.
Proof.
  intros H. unfold Py.int. apply Z.quot_pos; [|lia].
  unfold Qcle, Qle in H. simpl in H. lia.
Qed.

(** [int] is the floor on non-negative numbers. *)
Lemma int_floor x :
  (Q2Qc 0 <= x)%Qc ->
  (Py.of_int (Py.int x) <= x)%Qc /\ (x < Py.of_int (Py.int x + 1))%Qc.
Proof.
  intros H.
  assert (Hn : 0 <= Qnum x) by (unfold Qcle, Qle in H; simpl in H; lia).
  unfold Py.int. rewrite Z.quot_div_nonneg by lia.
  unfold Py.of_int, Qcle, Qclt. simpl. rewrite !Qred_correct.
  unfold Qle, Qlt. simpl.
  pose proof (Z.mul_div_le (Qnum x) (Z.pos (Qden x)) ltac:(lia)).
  pose proof (Z.mul_succ_div_gt (Qnum x) (Z.pos (Qden x)) ltac:(lia)).
  split; lia.
Qed.

Lemma int_small x : (Q2Qc 0 <= x)%Qc -> (x < 1)%Qc -> Py.int x = 0.
Proof.
  intros H0 H1. unfold Py.int. apply Z.quot_small.
  unfold Qcle, Qle in H0. unfold Qclt, Qlt in H1. simpl in *. lia.
Qed.

(** What the purchase of [int(target_value / price)] shares costs never
    exceeds [target_value]. *)
Lemma cost_le_target (target_value price : Qc) :
  (Q2Qc 0 <= target_value)%Qc -> (Q2Qc 0 < price)%Qc ->
  (Py.of_int (Py.int (target_value / price)) * price <= target_value)%Qc.
Proof.
  intros Ht Hp.
  assert (Hq : (Q2Qc 0 <= target_value / price)%Qc).
  { unfold Qcdiv. apply Qcmult_nonneg_nonneg; [done|].
    apply Qclt_le_weak, Qcinv_pos. done. }
  destruct (int_floor _ Hq) as [Hfl _].
  apply (Qcmult_le_compat_r _ _ price) in Hfl; [|by apply Qclt_le_weak].
  replace (target_value / price * price)%Qc with target_value in Hfl; [done|].
  field. intros E. symmetry in E. by apply Qclt_not_eq in Hp.
Qed.

End PyFacts.

(** ** Single orders *)

Section Orders.

Variable prices : gmap string Qc.

Implicit Types (o : Order.t) (s : string) (st : locals).


Lemma execute_order_trim_to o s target_qty st :
  Order.symbol o = Some s -> Order.action o = Some "TRIM_TO"%string ->
  Order.target_quantity o = Some target_qty ->
  execute_order prices o st = Ok (trim_to prices s target_qty st).
Proof. intros Hs Ha Ht. unfold execute_order. by rewrite Hs, Ha, Ht. Qed.

Lemma execute_order_buy_new o s st :
  Order.symbol o = Some s -> Order.action o = Some "BUY_NEW"%string ->
  execute_order prices o st =
  Ok (buy_new prices s (default (Q2Qc 0) (Order.target_value o)) st).
Proof. intros Hs Ha. unfold execute_order. by rewrite Hs, Ha. Qed.


Lemma buy_new_unaffordable s target_value st :
  (cash st < target_value)%Qc -> buy_new prices s target_value st = st.
Proof.
  intros H. unfold buy_new. apply leb_gt in H. rewrite H.
  by rewrite andb_false_r.
Qed.

End Orders.

(** ** SELL_ALL *)



(** ** BUY_NEW *)

Lemma buy_new_executes prices s target_value price st :
  (Q2Qc 0 < target_value)%Qc -> (target_value <= cash st)%Qc ->
  prices !! s = Some price -> (Q2Qc 0 < price)%Qc ->
  let shares_to_buy := Py.int (target_value / price)%Qc in
  let cost := (Py.of_int shares_to_buy * price)%Qc in
  (cost <= cash st)%Qc /\
  buy_new prices s target_value st =
  {| holdings :=
       <[s := default 0 (holdings st !! s) + shares_to_buy]> (holdings st);
     cash := (cash st - cost)%Qc;
     claude_actions :=
       claude_actions st ++
       ["BUY " +:+ s +:+ ": " +:+ Py.str_int shares_to_buy +:+ " shares @ $"
        +:+ Py.format_f 4 price +:+ " = $" +:+ Py.format_f 2 cost];
     printed :=
       printed st ++
       [executed
          ("BUY " +:+ s +:+ ": " +:+ Py.str_int shares_to_buy
           +:+ " shares @ $" +:+ Py.format_f 4 price +:+ " = $"
           +:+ Py.format_f 2 cost)] |}.
Proof.
  intros Ht Hc Hp Hpos shares_to_buy cost.
  assert (Hcost : (cost <= cash st)%Qc).
  { eapply Qcle_trans; [|exact Hc].
    apply cost_le_target; [by apply Qclt_le_weak|done]. }
  split; [done|].
  unfold buy_new. rewrite Hp.
  apply ltb_lt in Ht, Hpos. apply leb_le in Hc, Hcost.
  rewrite Ht, Hc, Hpos. simpl. fold shares_to_buy. fold cost.
  by rewrite Hcost.
Qed.



Lemma int_of_small_quotient (target_value price : Qc) :
  (Q2Qc 0 < target_value)%Qc -> (target_value < price)%Qc ->
  Py.int (target_value / price)%Qc = 0.
Proof.
  intros Ht Hlt.
  assert (Hpos : (Q2Qc 0 < price)%Qc) by (by eapply Qclt_trans).
  assert (Hinv : (Q2Qc 0 < / price)%Qc) by (by apply Qcinv_pos).
  apply int_small.
  - unfold Qcdiv. apply Qcmult_nonneg_nonneg; by apply Qclt_le_weak.
  - unfold Qcdiv.
    replace 1%Qc with (price * / price)%Qc.
    + by apply Qcmult_lt_compat_r.
    + apply Qcmult_inv_r. intros E. symmetry in E.
      by apply Qclt_not_eq in Hpos.
Qed.

(** C10.  A BUY_NEW order with [0 < target_value <= cash] and a price above
    [target_value] still executes: [int(target_value / price)] is [0], the
    cost is [0], the cash is unchanged, the symbol is entered into holdings
    with its prior count ([0] if it was absent), and the action string,
    which reports 0 shares for [$0.00], is appended. *)
Theorem buy_new_zero_shares prices o s st target_value price :
  Order.symbol o = Some s -> Order.action o = Some "BUY_NEW"%string ->
  Order.target_value o = Some target_value ->
  (Q2Qc 0 < target_value)%Qc -> (target_value <= cash st)%Qc ->
  prices !! s = Some price -> (target_value < price)%Qc ->
  exists st',
    execute_order prices o st = Ok st' /\
    Py.int (target_value / price)%Qc = 0 /\
    (Py.of_int (Py.int (target_value / price)%Qc) * price)%Qc = Q2Qc 0 /\
    cash st' = cash st /\
    holdings st' = <[s := default 0 (holdings st !! s)]> (holdings st) /\
    holdings st' !! s = Some (default 0 (holdings st !! s)) /\
    claude_actions st' =
      claude_actions st ++
      ["BUY " +:+ s +:+ ": 0 shares @ $" +:+ Py.format_f 4 price
       +:+ " = $0.00"].
Proof.
  intros Hs Ha Htv Ht Hc Hp Hlt.
  assert (Hpos : (Q2Qc 0 < price)%Qc) by (by eapply Qclt_trans).
  pose proof (int_of_small_quotient target_value price Ht Hlt) as Hz.
  rewrite (execute_order_buy_new prices o s st Hs Ha), Htv. simpl.
  destruct (buy_new_executes prices s target_value price st Ht Hc Hp Hpos)
    as [_ ->].
  rewrite Hz, of_int_0.
  replace (Q2Qc 0 * price)%Qc with (Q2Qc 0) by ring.
  replace (cash st - Q2Qc 0)%Qc with (cash st) by ring.
  rewrite Z.add_0_r.
  eexists. split; [reflexivity|]. simpl.
  repeat split. apply lookup_insert_eq.
Qed.

Lemma buy_new_zero_shares_witness :
  exists st',
    execute_order {["FEIM"%string := Py.cents 5000]}
      (BUY_NEW "FEIM" (Py.cents 4000))
      {| holdings := ∅; cash := Py.cents 100000;
         claude_actions := []; printed := [] |} = Ok st' /\
    Py.int (Py.cents 4000 / Py.cents 5000)%Qc = 0 /\
    (Py.of_int (Py.int (Py.cents 4000 / Py.cents 5000)%Qc)
     * Py.cents 5000)%Qc = Q2Qc 0 /\
    cash st' = Py.cents 100000 /\
    holdings st' =
      <["FEIM"%string := default 0 ((∅ : gmap string Z) !! "FEIM"%string)]> ∅ /\
    holdings st' !! "FEIM"%string =
      Some (default 0 ((∅ : gmap string Z) !! "FEIM"%string)) /\
    claude_actions st' =
      [] ++
      ["BUY " +:+ "FEIM" +:+ ": 0 shares @ $"
       +:+ Py.format_f 4 (Py.cents 5000) +:+ " = $0.00"].
Proof.
  refine (buy_new_zero_shares {["FEIM"%string := Py.cents 5000]}
            (BUY_NEW "FEIM" (Py.cents 4000)) "FEIM"%string
            {| holdings := ∅; cash := Py.cents 100000;
               claude_actions := []; printed := [] |}
            (Py.cents 4000) (Py.cents 5000)
            eq_refl eq_refl eq_refl eq_refl _ eq_refl eq_refl).
  vm_compute. discriminate.
Defined.

(** ** Non-negativity *)

Lemma nonneg_holdings_insert holdings s q :
  nonneg_holdings holdings -> 0 <= q ->
  nonneg_holdings (<[s := q]> holdings).
Proof.
  intros Hh Hq s' q'. rewrite lookup_insert. case_decide.
  - intros [= <-]. done.
  - apply Hh.
Qed.

Lemma proceeds_nonneg (n : Z) (price : Qc) :
  0 <= n -> (Q2Qc 0 < price)%Qc -> (Q2Qc 0 <= Py.of_int n * price)%Qc.
Proof.
  intros Hn Hp. apply Qcmult_nonneg_nonneg.
  - by apply of_int_nonneg.
  - by apply Qclt_le_weak.
Qed.

Section Invariant.

Variable prices : gmap string Qc.
Hypothesis prices_positive : positive_prices prices.

Lemma sell_all_nonneg s st :
  nonneg_state st -> nonneg_state (sell_all prices s st).
Proof.
  intros [Hh Hc]. unfold sell_all.
  destruct (holdings st !! s) as [qty|] eqn:Hq; [|done].
  destruct (0 <? qty) eqn:Hpos; [|done].
  destruct (prices !! s) as [price|] eqn:Hp; [|done].
  apply Z.ltb_lt in Hpos. split; simpl.
  - by apply nonneg_holdings_insert.
  - apply Qcplus_nonneg_nonneg; [done|].
    apply proceeds_nonneg; [lia|by eapply prices_positive].
Qed.

Lemma trim_to_nonneg s target_qty st :
  0 <= target_qty ->
  nonneg_state st -> nonneg_state (trim_to prices s target_qty st).
Proof.
  intros Ht [Hh Hc]. unfold trim_to.
  destruct (holdings st !! s) as [qty|] eqn:Hq; [|done].
  destruct (target_qty <? qty) eqn:Hlt; [|done].
  destruct (prices !! s) as [price|] eqn:Hp; [|done].
  apply Z.ltb_lt in Hlt. split; simpl.
  - by apply nonneg_holdings_insert.
  - apply Qcplus_nonneg_nonneg; [done|].
    apply proceeds_nonneg; [lia|by eapply prices_positive].
Qed.

Lemma buy_new_nonneg s target_value st :
  nonneg_state st -> nonneg_state (buy_new prices s target_value st).
Proof.
  intros [Hh Hc]. unfold buy_new.
  destruct (Py.ltb (Q2Qc 0) target_value) eqn:Ht; [|done].
  destruct (Py.leb target_value (cash st)) eqn:Hle; [|done]. simpl.
  destruct (prices !! s) as [price|] eqn:Hp; [|done].
  destruct (Py.ltb (Q2Qc 0) price) eqn:Hpos; [|done].
  destruct (Py.leb (Py.of_int (Py.int (target_value / price)%Qc) * price)%Qc
              (cash st)) eqn:Hcost; [|done].
  apply ltb_lt in Ht, Hpos. apply leb_le in Hcost.
  split; simpl.
  - apply nonneg_holdings_insert; [done|].
    assert (0 <= default 0 (holdings st !! s)).
    { destruct (holdings st !! s) as [q|] eqn:Hq; simpl; [by eapply Hh|lia]. }
    assert (0 <= Py.int (target_value / price)%Qc); [|lia].
    apply int_nonneg. unfold Qcdiv.
    apply Qcmult_nonneg_nonneg; [by apply Qclt_le_weak|].
    by apply Qclt_le_weak, Qcinv_pos.
  - unfold Qcminus. apply -> Qcle_minus_iff. exact Hcost.
Qed.

Lemma execute_order_nonneg o st st' :
  nonneg_target o -> nonneg_state st ->
  execute_order prices o st = Ok st' -> nonneg_state st'.
Proof.
  intros Ht Hst. unfold execute_order.
  destruct (Order.symbol o) as [s|]; [|done].
  destruct (Order.action o) as [a|] eqn:Ha; [|done].
  destruct (String.eqb a "SELL_ALL") eqn:E1.
  { intros [= <-]. by apply sell_all_nonneg. }
  destruct (String.eqb a "TRIM_TO") eqn:E2.
  { apply String.eqb_eq in E2. subst a.
    destruct (Order.target_quantity o) as [t|] eqn:Hq; [|done].
    intros [= <-]. apply trim_to_nonneg; [|done]. by apply Ht. }
  destruct (String.eqb a "BUY_NEW") eqn:E3.
  { intros [= <-]. by apply buy_new_nonneg. }
  destruct (String.eqb a "HOLD") eqn:E4; intros [= <-]; done.
Qed.

Lemma execute_queue_nonneg queue st :
  Forall nonneg_target queue -> nonneg_state st ->
  nonneg_state (execute_queue prices queue st).1.
Proof.
  intros Hq. revert st.
  induction Hq as [|o queue Ho Hq IH]; intros st Hst; simpl; [done|].
  destruct (execute_order prices o st) as [st'|e] eqn:E; simpl; [|done].
  apply IH. by eapply execute_order_nonneg.
Qed.

End Invariant.

(** ** The engine as a run of the loop over the pending orders *)

(** Whatever the queue file is, the returned triple is the one the loop
    reaches on the pending orders of the file. *)
Lemma returned_triple h prices date c file :
  let r := execute_trading_decisions h prices date c file in
  let st := (execute_queue prices (queue_of file) (entry h c)).1 in
  ret_holdings r = holdings st /\
  ret_cash r = cash st /\
  ret_actions r = claude_actions st.
Proof.
  destruct file as [| |msg|[tyname|d]]; simpl; try done.
  destruct (execution_queue d) as [[|o queue]|]; simpl; try done.
  fold (entry h c).
  destruct (execute_order prices o (entry h c)) as [st1|e]; [|done].
  destruct (execute_queue prices queue st1) as [st' [e|]]; done.
Qed.

(** C2, as the code has it.  From holdings without a negative count, a
    non-negative cash, positive prices and pending orders whose TRIM_TO
    targets are not negative, the engine returns holdings without a negative
    count and a non-negative cash, whatever the queue file is; an order
    whose precondition fails (a BUY_NEW that the cash does not cover, a
    TRIM_TO on a holding that is not above the target) changes nothing. *)
Theorem nonnegativity_preserved :
  (forall holdings prices date cash file,
     nonneg_holdings holdings -> (Q2Qc 0 <= cash)%Qc ->
     positive_prices prices -> Forall nonneg_target (queue_of file) ->
     let r := execute_trading_decisions holdings prices date cash file in
     nonneg_holdings (ret_holdings r) /\ (Q2Qc 0 <= ret_cash r)%Qc) /\
  (forall prices s target_value st,
     (cash st < target_value)%Qc -> buy_new prices s target_value st = st) /\
  (forall prices s target_qty st,
     (forall qty, holdings st !! s = Some qty -> qty <= target_qty) ->
     trim_to prices s target_qty st = st).
Proof.
  split; [|split].
  - intros h prices date c file Hh Hc Hp Hq r. subst r.
    destruct (returned_triple h prices date c file) as (-> & -> & _).
    apply execute_queue_nonneg; done.
  - intros. by apply buy_new_unaffordable.
  - intros prices s target_qty st H. unfold trim_to.
    destruct (holdings st !! s) as [qty|]; [|done].
    specialize (H qty eq_refl). apply Z.ltb_ge in H. by rewrite H.
Qed.

Lemma nonnegativity_preserved_witness :
  let r := execute_trading_decisions {["ARQ"%string := 37]}
             {["ARQ"%string := Py.cents 500]} "2025-08-19" (Py.cents 18000)
             (pending [TRIM_TO "ARQ" 10]) in
  nonneg_holdings (ret_holdings r) /\ (Q2Qc 0 <= ret_cash r)%Qc.
Proof.
  refine (proj1 nonnegativity_preserved {["ARQ"%string := 37]}
            {["ARQ"%string := Py.cents 500]} "2025-08-19"%string
            (Py.cents 18000) (pending [TRIM_TO "ARQ" 10]) _ _ _ _).
  - intros s q H. apply lookup_singleton_Some in H as [_ <-]. lia.
  - vm_compute. discriminate.
  - intros s p H. apply lookup_singleton_Some in H as [_ <-]. reflexivity.
  - repeat constructor. intros _ t [= <-]. lia.
Defined.

(** C2, as stated, fails: a TRIM_TO whose target is negative is executed
    and leaves a negative holding behind. *)
Lemma negative_target_counterexample :
  let r := execute_trading_decisions {["ARQ"%string := 5]}
             {["ARQ"%string := Py.of_int 1]} "2025-08-19" (Q2Qc 0)
             (pending [TRIM_TO "ARQ" (-3)]) in
  nonneg_holdings {["ARQ"%string := 5]} /\
  ret_holdings r = {["ARQ"%string := -3]} /\
  ret_cash r = Py.of_int 8 /\
  ~ nonneg_holdings (ret_holdings r).
Proof.
  split; [|split; [|split]].
  - intros s q H. apply lookup_singleton_Some in H as [_ <-]. lia.
  - reflexivity.
  - vm_compute. apply Qc_is_canon. reflexivity.
  - intros H. specialize (H "ARQ"%string (-3) eq_refl). lia.
Qed.

(** ** Exceptions inside the loop *)

Lemma execute_queue_app prices pre queue st st1 :
  execute_queue prices pre st = (st1, None) ->
  execute_queue prices (pre ++ queue) st = execute_queue prices queue st1.
Proof.
  revert st. induction pre as [|o pre IH]; intros st; simpl.
  - by intros [= ->].
  - destruct (execute_order prices o st) as [st'|e]; [apply IH|done].
Qed.

Lemma execute_queue_raise prices pre bad post st st1 e :
  execute_queue prices pre st = (st1, None) ->
  execute_order prices bad st1 = Raise e ->
  execute_queue prices (pre ++ bad :: post) st = (st1, Some e).
Proof.
  intros Hpre Hbad. rewrite (execute_queue_app _ _ _ _ _ Hpre).
  simpl. by rewrite Hbad.
Qed.

Lemma execute_order_raises prices o st e :
  execute_order prices o st = Raise e <->
  (Order.symbol o = None /\ e = KeyError "symbol") \/
  (is_Some (Order.symbol o) /\ Order.action o = None /\
   e = KeyError "action") \/
  (is_Some (Order.symbol o) /\ Order.action o = Some "TRIM_TO"%string /\
   Order.target_quantity o = None /\ e = KeyError "target_quantity").
Proof.
  unfold execute_order.
  destruct (Order.symbol o) as [s|].
  2:{ split; [intros [= <-]; by left|].
      intros [[_ ->]|[([? [=]] & _)|([? [=]] & _)]]. done. }
  destruct (Order.action o) as [a|].
  2:{ split; [intros [= <-]; right; left; eauto|].
      intros [[[=] _]|[(_ & _ & ->)|(_ & [=] & _)]]. done. }
  destruct (String.eqb a "SELL_ALL") eqn:E1.
  { apply String.eqb_eq in E1. subst a. split; [done|].
    intros [[[=] _]|[(_ & [=] & _)|(_ & [=] & _)]]. }
  destruct (String.eqb a "TRIM_TO") eqn:E2.
  { apply String.eqb_eq in E2. subst a.
    destruct (Order.target_quantity o) as [t|].
    - split; [done|].
      intros [[[=] _]|[(_ & [=] & _)|(_ & _ & [=] & _)]].
    - split; [intros [= <-]; right; right; eauto|].
      intros [[[=] _]|[(_ & [=] & _)|(_ & _ & _ & ->)]]. done. }
  apply String.eqb_neq in E2.
  split.
  - destruct (String.eqb a "BUY_NEW"); [done|].
    destruct (String.eqb a "HOLD"); done.
  - intros [[[=] _]|[(_ & [=] & _)|(_ & [= ->] & _)]]. done.
Qed.

(** C9.  An order raises exactly when it lacks its ["symbol"] key, its
    ["action"] key or, for a TRIM_TO, its ["target_quantity"] key.  When an
    order of a queue raises, the engine returns the holdings, the cash and
    the actions that the orders before it produced, whatever the orders
    after it are, and leaves the queue file as it was, its pending list
    intact; the error is printed. *)
Theorem exception_keeps_earlier_effects :
  (forall prices o st e,
     execute_order prices o st = Raise e <->
     (Order.symbol o = None /\ e = KeyError "symbol") \/
     (is_Some (Order.symbol o) /\ Order.action o = None /\
      e = KeyError "action") \/
     (is_Some (Order.symbol o) /\ Order.action o = Some "TRIM_TO"%string /\
      Order.target_quantity o = None /\ e = KeyError "target_quantity")) /\
  (forall h prices date c decisions_data pre bad post st e,
     execution_queue decisions_data = Some (pre ++ bad :: post) ->
     execute_queue prices pre (entry h c) = (st, None) ->
     execute_order prices bad st = Raise e ->
     let r := execute_trading_decisions h prices date c
                (Parsed (Dict decisions_data)) in
     ret_holdings r = holdings st /\
     ret_cash r = cash st /\
     ret_actions r = claude_actions st /\
     file_after r = Parsed (Dict decisions_data) /\
     execution_queue decisions_data = Some (pre ++ bad :: post) /\
     output r =
       printed st ++ ["Error executing trading decisions: " +:+ str_exn e]).
Proof.
  split; [apply execute_order_raises|].
  intros h prices date c d pre bad post st e Hd Hpre Hbad r. subst r.
  pose proof (execute_queue_raise prices pre bad post _ st e Hpre Hbad) as Hq.
  unfold execute_trading_decisions. rewrite Hd.
  fold (entry h c).
  destruct (pre ++ bad :: post) as [|o queue] eqn:Happ.
  { by destruct pre. }
  rewrite Hq. done.
Qed.

Lemma exception_keeps_earlier_effects_witness :
  let decisions_data :=
    {| execution_queue :=
         Some ([SELL_ALL "GEVO"] ++
               Order.mk None (Some "SELL_ALL"%string) None None None ::
               [SELL_ALL "ARQ"]);
       claude_decisions_executed := Some false;
       execution_date := None; other := [] |} in
  let st := sell_all {["GEVO"%string := Py.cents 150; "ARQ"%string := Py.cents 500]}
              "GEVO"
              (entry {["GEVO"%string := 199; "ARQ"%string := 37]}
                 (Py.cents 18000)) in
  let r := execute_trading_decisions
             {["GEVO"%string := 199; "ARQ"%string := 37]}
             {["GEVO"%string := Py.cents 150; "ARQ"%string := Py.cents 500]}
             "2025-08-19" (Py.cents 18000) (Parsed (Dict decisions_data)) in
  ret_holdings r = holdings st /\
  ret_cash r = cash st /\
  ret_actions r = claude_actions st /\
  file_after r = Parsed (Dict decisions_data) /\
  execution_queue decisions_data =
    Some ([SELL_ALL "GEVO"] ++
          Order.mk None (Some "SELL_ALL"%string) None None None ::
          [SELL_ALL "ARQ"]) /\
  output r =
    printed st ++
    ["Error executing trading decisions: " +:+ str_exn (KeyError "symbol")].
Proof.
  intros decisions_data st r.
  exact (proj2 exception_keeps_earlier_effects
           {["GEVO"%string := 199; "ARQ"%string := 37]}
           {["GEVO"%string := Py.cents 150; "ARQ"%string := Py.cents 500]}
           "2025-08-19"%string (Py.cents 18000) decisions_data
           [SELL_ALL "GEVO"]
           (Order.mk None (Some "SELL_ALL"%string) None None None)
           [SELL_ALL "ARQ"] st (KeyError "symbol")
           eq_refl eq_refl eq_refl).
Defined.

(** ** Consumption of the queue *)

Lemma complete_no_raise prices o st :
  complete o -> exists st', execute_order prices o st = Ok st'.
Proof.
  intros (Hs & Ha & Ht).
  destruct (execute_order prices o st) as [st'|e] eqn:E; [by eexists|].
  apply execute_order_raises in E
    as [[E _]|[(_ & E & _)|(_ & Hact & E & _)]].
  - rewrite E in Hs. by destruct Hs.
  - rewrite E in Ha. by destruct Ha.
  - specialize (Ht Hact). rewrite E in Ht. by destruct Ht.
Qed.

Lemma complete_queue_no_raise prices queue st :
  Forall complete queue ->
  exists st', execute_queue prices queue st = (st', None).
Proof.
  intros Hq. revert st.
  induction Hq as [|o queue Ho Hq IH]; intros st; simpl; [by eexists|].
  destruct (complete_no_raise prices o st Ho) as [st1 ->]. apply IH.
Qed.

(** C5, as the code has it.  When the pending list is not empty and every
    order has the keys the loop reads, the queue record is rewritten with
    an empty pending list, the executed flag set and the run date, whether
    or not any order had an effect.  When the pending list is empty or
    absent the record is left as it is: nothing is rewritten and no marker
    is recorded. *)
Theorem queue_consumed_when_pending :
  (forall h prices date c decisions_data o queue,
     execution_queue decisions_data = Some (o :: queue) ->
     Forall complete (o :: queue) ->
     let r := execute_trading_decisions h prices date c
                (Parsed (Dict decisions_data)) in
     file_after r = Parsed (Dict (mark_executed date decisions_data)) /\
     queue_of (file_after r) = [] /\
     execution_queue (mark_executed date decisions_data) = Some [] /\
     claude_decisions_executed (mark_executed date decisions_data)
       = Some true /\
     execution_date (mark_executed date decisions_data) = Some date) /\
  (forall h prices date c decisions_data,
     execution_queue decisions_data = None \/
     execution_queue decisions_data = Some [] ->
     let r := execute_trading_decisions h prices date c
                (Parsed (Dict decisions_data)) in
     file_after r = Parsed (Dict decisions_data) /\
     ret_holdings r = h /\ ret_cash r = c /\ ret_actions r = [] /\
     output r = ["No pending trading decisions"%string]).
Proof.
  split.
  - intros h prices date c d o queue Hd Hq r. subst r.
    destruct (complete_queue_no_raise prices (o :: queue) (entry h c) Hq)
      as [st' Hst'].
    unfold execute_trading_decisions. rewrite Hd.
    fold (entry h c). rewrite Hst'. done.
  - intros h prices date c d [Hd|Hd] r; subst r;
      unfold execute_trading_decisions; rewrite Hd; done.
Qed.

(** Two orders without effect ([SERV] is not held, a HOLD changes nothing):
    the record is marked all the same. *)
Lemma queue_consumed_when_pending_witness :
  let decisions_data :=
    {| execution_queue := Some [SELL_ALL "SERV"; HOLD "GEVO" 199];
       claude_decisions_executed := Some false;
       execution_date := None; other := [] |} in
  let r := execute_trading_decisions initial_holdings ∅ "2025-08-19"
             initial_cash (Parsed (Dict decisions_data)) in
  (file_after r = Parsed (Dict (mark_executed "2025-08-19" decisions_data)) /\
   queue_of (file_after r) = [] /\
   execution_queue (mark_executed "2025-08-19" decisions_data) = Some [] /\
   claude_decisions_executed (mark_executed "2025-08-19" decisions_data)
     = Some true /\
   execution_date (mark_executed "2025-08-19" decisions_data)
     = Some "2025-08-19"%string) /\
  ret_holdings r = initial_holdings /\ ret_cash r = initial_cash /\
  ret_actions r = [].
Proof.
  intros decisions_data r. split; [|by vm_compute].
  refine (proj1 queue_consumed_when_pending initial_holdings ∅
            "2025-08-19"%string initial_cash decisions_data
            (SELL_ALL "SERV") [HOLD "GEVO" 199] eq_refl _).
  repeat constructor; simpl; eauto; discriminate.
Defined.

(** C5, as stated, fails on an empty pending list: the record is not
    rewritten, its flag stays false and no date is recorded. *)
Lemma empty_queue_counterexample :
  let r := execute_trading_decisions initial_holdings ∅ "2025-08-19"
             initial_cash (pending []) in
  file_after r = pending [] /\
  file_after r <>
    Parsed (Dict {| execution_queue := Some [];
                    claude_decisions_executed := Some true;
                    execution_date := Some "2025-08-19"%string;
                    other := [] |}).
Proof. split; [reflexivity|discriminate]. Qed.

(** ** Valuation *)

Lemma SYMBOLS_NoDup : NoDup SYMBOLS.
Proof. by compute_done. Qed.

Lemma sum_Qc_cons (x : Qc) (l : list Qc) :
  sum_Qc (x :: l) = (x + sum_Qc l)%Qc.
Proof. reflexivity. Qed.

Lemma sum_Qc_Permutation (l k : list Qc) : l ≡ₚ k -> sum_Qc l = sum_Qc k.
Proof.
  induction 1 as [|x l k _ IH|x y l|l k m _ IH1 _ IH2]; simpl.
  - done.
  - by rewrite IH.
  - ring.
  - by rewrite IH1.
Qed.

Lemma sum_Qc_filter (P : string -> Prop) `{!forall s, Decision (P s)}
  (f : string -> Qc) (l : list string) :
  sum_Qc ((fun s => if decide (P s) then f s else Q2Qc 0) <$> l) =
  sum_Qc (f <$> filter P l).
Proof.
  induction l as [|s l IH]; [done|].
  rewrite fmap_cons, sum_Qc_cons, IH, filter_cons.
  destruct (decide (P s)); [by rewrite fmap_cons, sum_Qc_cons|ring].
Qed.

Lemma valuation_fold holdings prices l acc :
  (foldl (valuation_step holdings prices) acc l).2 =
  (acc.2 + sum_Qc (contribution holdings prices <$> l))%Qc.
Proof.
  revert acc. induction l as [|s l IH]; intros acc.
  - change (acc.2 = (acc.2 + Q2Qc 0)%Qc). ring.
  - change (foldl (valuation_step holdings prices) acc (s :: l))
      with (foldl (valuation_step holdings prices)
              (valuation_step holdings prices acc s) l).
    rewrite IH, fmap_cons, sum_Qc_cons.
    unfold valuation_step, contribution.
    destruct (holdings !! s) as [qty|]; [|cbn [snd]; ring].
    destruct (prices !! s) as [price|]; [|cbn [snd]; ring].
    destruct (0 <? qty); cbn [snd]; ring.
Qed.

Lemma held_items_lookup {A} holdings (d : gmap string A) s v :
  held_items holdings d !! s = Some v <->
  d !! s = Some v /\ exists qty, holdings !! s = Some qty /\ 0 < qty.
Proof.
  unfold held_items. rewrite map_lookup_filter_Some. simpl. unfold held.
  split; intros [Hd Hh]; (split; [done|]).
  - destruct (holdings !! s) as [qty|]; [|done].
    exists qty. split; [done|]. by apply Z.ltb_lt.
  - destruct Hh as (qty & -> & Hq). by apply Z.ltb_lt.
Qed.

Lemma elem_of_held_and_priced holdings prices s :
  s ∈ held_and_priced holdings prices <->
  exists qty price,
    holdings !! s = Some qty /\ 0 < qty /\ prices !! s = Some price.
Proof.
  unfold held_and_priced. rewrite elem_of_dom. split.
  - intros [price H]. apply held_items_lookup in H as [Hp (qty & Hq & Hpos)].
    eauto.
  - intros (qty & price & Hq & Hpos & Hp). exists price.
    apply held_items_lookup. eauto.
Qed.

Lemma contribution_spec holdings prices s :
  contribution holdings prices s =
  if decide (s ∈ held_and_priced holdings prices)
  then position_value holdings prices s else Q2Qc 0.
Proof.
  unfold contribution, position_value.
  destruct (decide (s ∈ held_and_priced holdings prices)) as [Hin|Hnot].
  - apply elem_of_held_and_priced in Hin as (qty & price & -> & Hpos & ->).
    apply Z.ltb_lt in Hpos. by rewrite Hpos.
  - destruct (holdings !! s) as [qty|] eqn:Hq; [|done].
    destruct (prices !! s) as [price|] eqn:Hp; [|done].
    destruct (0 <? qty) eqn:Hpos; [|done].
    exfalso. apply Hnot, elem_of_held_and_priced.
    apply Z.ltb_lt in Hpos. eauto.
Qed.

(** The loop over [SYMBOLS] computes the total of the specification as soon
    as every priced symbol is one of [SYMBOLS]. *)
Lemma valuation_total holdings prices cash :
  (forall s, is_Some (prices !! s) -> s ∈ SYMBOLS) ->
  (valuation holdings prices cash).2 = spec_total_value holdings prices cash.
Proof.
  intros Hdom. unfold valuation, spec_total_value.
  rewrite valuation_fold. cbn [snd]. f_equal.
  rewrite (list_fmap_ext (contribution holdings prices)
             (fun s => if decide (s ∈ held_and_priced holdings prices)
                       then position_value holdings prices s else Q2Qc 0)
             SYMBOLS)
    by (intros; apply contribution_spec).
  rewrite (sum_Qc_filter (fun s => s ∈ held_and_priced holdings prices)).
  apply sum_Qc_Permutation, fmap_Permutation.
  apply NoDup_Permutation.
  - apply NoDup_filter, SYMBOLS_NoDup.
  - apply NoDup_elements.
  - intros s. rewrite list_elem_of_filter, elem_of_elements.
    split; [by intros [? _]|]. intros Hs. split; [done|].
    apply Hdom. apply elem_of_held_and_priced in Hs as (? & ? & _ & _ & ->).
    by eexists.
Qed.

Lemma fetch_prices_fold (get_price : string -> option Qc) l
  (acc : gmap string Qc) s (p : Qc) :
  foldl (fetch_step get_price) acc l !! s = Some p ->
  acc !! s = Some p \/ s ∈ l.
Proof.
  revert acc. induction l as [|x l IH]; intros acc; simpl; [by left|].
  intros H. apply IH in H as [H|H]; [|right; by right].
  unfold fetch_step in H.
  destruct (get_price x) as [price|]; [|by left].
  destruct (Py.eqb price (Q2Qc 0)); [by left|].
  rewrite lookup_insert in H. case_decide; [|by left].
  subst. right. by left.
Qed.

Lemma fetch_prices_symbols get_price s :
  is_Some (fetch_prices get_price !! s) -> s ∈ SYMBOLS.
Proof.
  intros [p H]. apply fetch_prices_fold in H as [H|H]; [|done].
  by rewrite lookup_empty in H.
Qed.

(** ** The run *)

Lemma individual_loop_ok items previous_prices (quantities : gmap string Z)
  individual_changes :
  (forall s (p : Qc), (s, p) ∈ items -> is_Some (quantities !! s)) ->
  exists m,
    individual_loop items previous_prices quantities individual_changes
    = Ok m.
Proof.
  revert individual_changes.
  induction items as [|[s p] items IH]; intros acc Hq; simpl; [by eexists|].
  assert (Hrest : forall s' (p' : Qc),
             (s', p') ∈ items -> is_Some (quantities !! s')).
  { intros s' p' Hin. apply (Hq s' p'). by right. }
  destruct (previous_prices !! s) as [prev_price|]; [|by apply IH].
  destruct (Hq s p ltac:(by left)) as [qty ->]. by apply IH.
Qed.

Lemma calculate_daily_changes_ok current_data previous_data :
  (forall s, is_Some (Current.prices current_data !! s) ->
             is_Some (Current.quantities current_data !! s)) ->
  exists d, calculate_daily_changes current_data previous_data = Ok d.
Proof.
  intros Hq. unfold calculate_daily_changes.
  destruct previous_data as [previous_data|]; [|by eexists].
  destruct (individual_loop_ok
              (map_to_list (Current.prices current_data))
              (Previous.prices previous_data)
              (Current.quantities current_data) ∅) as [m ->].
  - intros s p Hin. apply elem_of_map_to_list in Hin. apply Hq. by eexists.
  - by eexists.
Qed.

Lemma held_items_positive {A} holdings (d : gmap string A) s :
  is_Some (held_items holdings d !! s) ->
  is_Some (positive_items holdings !! s).
Proof.
  intros [v H]. apply held_items_lookup in H as [_ (qty & Hq & Hpos)].
  exists qty. unfold positive_items. by apply map_lookup_filter_Some.
Qed.

(** With the API key set, [main] runs to its end, whatever the files hold,
    and leaves the following behind. *)
Lemma main_exits w API_KEY :
  api_key_set (ALPHAVANTAGE_API_KEY w) = Some API_KEY ->
  let r := run_engine w API_KEY in
  let prices := run_prices w API_KEY in
  let v := valuation (ret_holdings r) prices (ret_cash r) in
  exists daily_changes,
    calculate_daily_changes (run_current w API_KEY)
      (get_previous_day_data (portfolio_history_csv w)) = Ok daily_changes /\
    main w =
    Exited 0
      {| ALPHAVANTAGE_API_KEY := ALPHAVANTAGE_API_KEY w;
         get_alpha_vantage_price := get_alpha_vantage_price w;
         today := today w;
         holdings_json := Some (ret_holdings r);
         cash_json := Some (Some (ret_cash r));
         trading_decisions_json := file_after r;
         portfolio_history_csv :=
           append_row (portfolio_history_csv w)
             {| row_date := today w;
                columns := csv_columns (ret_holdings r) prices v.2
                             (ret_cash r) |};
         latest_json :=
           Some (Portfolio.mk (today w) (Py.format_f 2 (ret_cash r))
                   (Py.format_f 2 v.2)
                   (held_items (ret_holdings r) prices)
                   (positive_items (ret_holdings r))
                   (held_items (ret_holdings r) v.1)
                   (first_action (ret_actions r)) daily_changes
                   (truthy (ret_actions r))) |}.
Proof.
  intros Hkey r prices v.
  destruct (calculate_daily_changes_ok (run_current w API_KEY)
              (get_previous_day_data (portfolio_history_csv w)))
    as [d Hd].
  { intros s. apply held_items_positive. }
  exists d. split; [done|].
  unfold main. rewrite Hkey.
  fold (start_holdings w). fold (start_cash w).
  fold (run_prices w API_KEY). fold (run_engine w API_KEY).
  fold r. fold prices. fold v.
  unfold run_current in Hd. fold r in Hd. fold prices in Hd. fold v in Hd.
  destruct v as [values total_value] eqn:Hv. simpl in *.
  by rewrite Hd.
Qed.


Lemma csv_columns_total holdings prices total_value cash :
  csv_columns holdings prices total_value cash !! "total_value"%string
  = Some (Num total_value) /\
  csv_columns holdings prices total_value cash !! "cash"%string
  = Some (Num cash).
Proof.
  unfold csv_columns, SYMBOLS. simpl.
  split; repeat (rewrite lookup_insert_ne by done); by rewrite lookup_insert_eq.
Qed.

Lemma csv_columns_symbol holdings prices total_value cash s :
  s ∈ SYMBOLS ->
  csv_columns holdings prices total_value cash !! (s +:+ "_price")
  = Some (Num (default (Q2Qc 0) (prices !! s))) /\
  csv_columns holdings prices total_value cash !! (s +:+ "_qty")
  = Some (Num (Py.of_int (default 0 (holdings !! s)))).
Proof.
  intros Hs. unfold SYMBOLS in Hs. set_unfold in Hs.
  unfold csv_columns, SYMBOLS.
  destruct_or!; subst s; simpl;
    (split; repeat (rewrite lookup_insert_ne by done);
     by rewrite lookup_insert_eq).
Qed.



(** ** Malformed queue files *)

(** C6, as the code has it.  A missing, blank or unparsable queue file is
    treated as no pending orders: a line is printed, and the holdings, the
    cash and an empty action list are returned, the file untouched.  A file
    that parses to something that is not an object, or whose first pending
    order lacks a key, is reported in the same way and the engine returns
    holdings and cash as they were and no action.  When the order that
    lacks a key comes later in the queue the error is reported as well, but
    the returned holdings, cash and actions are those the earlier orders
    produced.  In every case the run goes on to its end: [main] exits with
    code 0 whatever the queue file is. *)
Theorem malformed_queue_handling :
  (forall h prices date c,
     let r := execute_trading_decisions h prices date c NoFile in
     ret_holdings r = h /\ ret_cash r = c /\ ret_actions r = [] /\
     file_after r = NoFile /\
     output r = ["No trading decisions file found"%string]) /\
  (forall h prices date c,
     let r := execute_trading_decisions h prices date c Blank in
     ret_holdings r = h /\ ret_cash r = c /\ ret_actions r = [] /\
     file_after r = Blank /\
     output r = ["Trading decisions file is empty"%string]) /\
  (forall h prices date c msg,
     let r := execute_trading_decisions h prices date c (Unparsable msg) in
     ret_holdings r = h /\ ret_cash r = c /\ ret_actions r = [] /\
     file_after r = Unparsable msg /\
     output r = ["JSON decode error in trading_decisions.json: " +:+ msg;
                 "Please check the JSON syntax"%string]) /\
  (forall h prices date c tyname,
     let r := execute_trading_decisions h prices date c
                (Parsed (NotDict tyname)) in
     ret_holdings r = h /\ ret_cash r = c /\ ret_actions r = [] /\
     file_after r = Parsed (NotDict tyname) /\
     output r = ["Error executing trading decisions: '" +:+ tyname
                 +:+ "' object has no attribute 'get'"]) /\
  (forall h prices date c decisions_data bad post e,
     execution_queue decisions_data = Some (bad :: post) ->
     execute_order prices bad (entry h c) = Raise e ->
     let r := execute_trading_decisions h prices date c
                (Parsed (Dict decisions_data)) in
     ret_holdings r = h /\ ret_cash r = c /\ ret_actions r = [] /\
     file_after r = Parsed (Dict decisions_data) /\
     output r = ["🤖 Checking Claude's trading decisions..."%string;
                 "Error executing trading decisions: " +:+ str_exn e]) /\
  (forall h prices date c decisions_data pre bad post st e,
     execution_queue decisions_data = Some (pre ++ bad :: post) ->
     execute_queue prices pre (entry h c) = (st, None) ->
     execute_order prices bad st = Raise e ->
     let r := execute_trading_decisions h prices date c
                (Parsed (Dict decisions_data)) in
     ret_holdings r = holdings st /\ ret_cash r = cash st /\
     ret_actions r = claude_actions st /\
     file_after r = Parsed (Dict decisions_data) /\
     last (output r) =
       Some ("Error executing trading decisions: " +:+ str_exn e)) /\
  (forall w API_KEY,
     api_key_set (ALPHAVANTAGE_API_KEY w) = Some API_KEY ->
     exists w', main w = Exited 0 w').
Proof.
  split; [|split; [|split; [|split; [|split; [|split]]]]].
  - intros h prices date c r. by repeat split.
  - intros h prices date c r. by repeat split.
  - intros h prices date c msg r. by repeat split.
  - intros h prices date c tyname r. by repeat split.
  - intros h prices date c d bad post e Hd Hbad r. subst r.
    unfold execute_trading_decisions. rewrite Hd. simpl.
    fold (entry h c). rewrite Hbad. done.
  - intros h prices date c d pre bad post st e Hd Hpre Hbad r. subst r.
    pose proof (execute_queue_raise prices pre bad post _ st e Hpre Hbad)
      as Hq.
    unfold execute_trading_decisions. rewrite Hd. fold (entry h c).
    destruct (pre ++ bad :: post) as [|o queue] eqn:Happ.
    { by destruct pre. }
    rewrite Hq. simpl. repeat split. apply last_snoc.
  - intros w API_KEY Hkey.
    destruct (main_exits w API_KEY Hkey) as (d & _ & Hmain). by eexists.
Qed.

Lemma malformed_queue_handling_witness :
  let decisions_data :=
    {| execution_queue :=
         Some [Order.mk (Some "GEVO"%string) None None None None;
               SELL_ALL "GEVO"];
       claude_decisions_executed := Some false;
       execution_date := None; other := [] |} in
  let r := execute_trading_decisions initial_holdings
             {["GEVO"%string := Py.cents 150]} "2025-08-19" initial_cash
             (Parsed (Dict decisions_data)) in
  ret_holdings r = initial_holdings /\ ret_cash r = initial_cash /\
  ret_actions r = [] /\
  file_after r = Parsed (Dict decisions_data) /\
  output r = ["🤖 Checking Claude's trading decisions..."%string;
              "Error executing trading decisions: "
              +:+ str_exn (KeyError "action")].
Proof.
  intros decisions_data r.
  exact (proj1 (proj2 (proj2 (proj2 (proj2 malformed_queue_handling))))
           initial_holdings {["GEVO"%string := Py.cents 150]}
           "2025-08-19"%string initial_cash decisions_data
           (Order.mk (Some "GEVO"%string) None None None None)
           [SELL_ALL "GEVO"] (KeyError "action") eq_refl eq_refl).
Defined.

(** C6, as stated, fails when the order that lacks a key is not the first
    one: the file parses, its structure is invalid, and yet the sale that
    came before the faulty order is kept in the returned holdings, cash and
    actions. *)
Lemma malformed_queue_counterexample :
  let decisions_data :=
    {| execution_queue :=
         Some [SELL_ALL "GEVO";
               Order.mk None (Some "SELL_ALL"%string) None None None];
       claude_decisions_executed := Some false;
       execution_date := None; other := [] |} in
  let r := execute_trading_decisions {["GEVO"%string := 199]}
             {["GEVO"%string := Py.cents 150]} "2025-08-19"
             (Py.cents 18000) (Parsed (Dict decisions_data)) in
  (exists e, (execute_queue {["GEVO"%string := Py.cents 150]}
                (queue_of (Parsed (Dict decisions_data)))
                (entry {["GEVO"%string := 199]} (Py.cents 18000))).2
             = Some e) /\
  ret_holdings r = {["GEVO"%string := 0]} /\
  ret_holdings r <> {["GEVO"%string := 199]} /\
  ret_cash r = Py.cents 47850 /\
  ret_cash r <> Py.cents 18000 /\
  ret_actions r = ["SELL ALL GEVO: 199 shares @ $1.5000 = $298.50"%string] /\
  output r = ["🤖 Checking Claude's trading decisions..."%string;
              "✅ Executed: SELL ALL GEVO: 199 shares @ $1.5000 = $298.50"%string;
              "Error executing trading decisions: 'symbol'"%string].
Proof.
  intros decisions_data r.
  assert (Hc : ret_cash r = Py.cents 47850).
  { vm_compute. apply Qc_is_canon. reflexivity. }
  split; [by eexists|].
  split; [reflexivity|].
  split.
  { intros H. apply (f_equal (fun m => m !! "GEVO"%string)) in H.
    vm_compute in H. discriminate. }
  split; [exact Hc|].
  split.
  { rewrite Hc. intros H. apply (f_equal (fun q : Qc => Qnum q)) in H.
    vm_compute in H. discriminate. }
  split; reflexivity.
Qed.

(** ** The action recorded in the snapshot *)

Lemma execute_order_appends prices o st st' :
  execute_order prices o st = Ok st' ->
  exists new,
    claude_actions st' = claude_actions st ++ new /\ (length new <= 1)%nat.
Proof.
  unfold execute_order.
  destruct (Order.symbol o) as [s|]; [|done].
  destruct (Order.action o) as [a|]; [|done].
  assert (Hsame : exists new,
             claude_actions st = claude_actions st ++ new /\
             (length new <= 1)%nat).
  { exists []. rewrite app_nil_r. simpl. split; [done|lia]. }
  destruct (String.eqb a "SELL_ALL").
  { intros [= <-]. unfold sell_all.
    destruct (holdings st !! s) as [qty|]; [|done].
    destruct (0 <? qty); [|done].
    destruct (prices !! s) as [price|]; [|done].
    simpl. by eexists [_]. }
  destruct (String.eqb a "TRIM_TO").
  { destruct (Order.target_quantity o) as [t|]; [|done].
    intros [= <-]. unfold trim_to.
    destruct (holdings st !! s) as [qty|]; [|done].
    destruct (t <? qty); [|done].
    destruct (prices !! s) as [price|]; [|done].
    simpl. by eexists [_]. }
  destruct (String.eqb a "BUY_NEW").
  { intros [= <-]. unfold buy_new.
    destruct (_ && _); [|done].
    destruct (prices !! s) as [price|]; [|done].
    destruct (Py.ltb (Q2Qc 0) price); [|done].
    destruct (Py.leb _ (cash st)); [|done].
    simpl. by eexists [_]. }
  destruct (String.eqb a "HOLD"); intros [= <-]; done.
Qed.

Lemma execute_queue_appends prices queue st :
  exists new,
    claude_actions (execute_queue prices queue st).1
    = claude_actions st ++ new.
Proof.
  revert st. induction queue as [|o queue IH]; intros st; simpl.
  - exists []. by rewrite app_nil_r.
  - destruct (execute_order prices o st) as [st1|e] eqn:E; simpl.
    + destruct (execute_order_appends prices o st st1 E) as (new1 & H1 & _).
      destruct (IH st1) as [new H2].
      rewrite H2, H1. exists (new1 ++ new). by rewrite app_assoc.
    + exists []. by rewrite app_nil_r.
Qed.

(** C8, as the code has it.  Every executed order appends its description
    at the end of the action list, so that the descriptions of the orders
    of a prefix of the queue come before those of the orders after it.  The
    snapshot [docs/latest.json] records the first description of the list,
    that of the earliest order that executed, and nothing when no order
    executed; its flag tells whether the list is non-empty. *)
Theorem snapshot_records_first_action :
  (forall prices o st st',
     execute_order prices o st = Ok st' ->
     exists new,
       claude_actions st' = claude_actions st ++ new /\
       (length new <= 1)%nat) /\
  (forall prices pre post st st1,
     execute_queue prices pre st = (st1, None) ->
     exists new,
       claude_actions (execute_queue prices (pre ++ post) st).1
       = claude_actions st1 ++ new) /\
  (forall w API_KEY,
     api_key_set (ALPHAVANTAGE_API_KEY w) = Some API_KEY ->
     let claude_actions := ret_actions (run_engine w API_KEY) in
     exists w' snapshot,
       main w = Exited 0 w' /\
       latest_json w' = Some snapshot /\
       Portfolio.actions snapshot = head claude_actions /\
       Portfolio.claude_decisions_executed snapshot
         = bool_decide (claude_actions <> []) /\
       (claude_actions = [] ->
        Portfolio.actions snapshot = None /\
        Portfolio.claude_decisions_executed snapshot = false)).
Proof.
  split; [apply execute_order_appends|split].
  - intros prices pre post st st1 Hpre.
    rewrite (execute_queue_app prices pre post st st1 Hpre).
    apply execute_queue_appends.
  - intros w API_KEY Hkey acts.
    destruct (main_exits w API_KEY Hkey) as (d & _ & Hmain).
    eexists _, _. split; [exact Hmain|]. simpl. fold acts.
    split; [done|]. destruct acts as [|a acts']; simpl; repeat split; done.
Qed.

Lemma snapshot_records_first_action_witness :
  let claude_actions := ret_actions (run_engine example_world "demo") in
  exists w' snapshot,
    main example_world = Exited 0 w' /\
    latest_json w' = Some snapshot /\
    Portfolio.actions snapshot = head claude_actions /\
    Portfolio.claude_decisions_executed snapshot
      = bool_decide (claude_actions <> []) /\
    (claude_actions = [] ->
     Portfolio.actions snapshot = None /\
     Portfolio.claude_decisions_executed snapshot = false).
Proof.
  exact (proj2 (proj2 snapshot_records_first_action)
           example_world "demo"%string eq_refl).
Defined.

(** C8, as stated, fails when two orders execute: the snapshot holds the
    description of the first sale, not that of the most recent one. *)
Lemma most_recent_action_counterexample :
  exists w' snapshot,
    main example_world = Exited 0 w' /\
    latest_json w' = Some snapshot /\
    ret_actions (run_engine example_world "demo") =
      ["SELL ALL GEVO: 199 shares @ $1.5000 = $298.50"%string;
       "SELL ALL ARQ: 37 shares @ $5.0000 = $185.00"%string] /\
    Portfolio.actions snapshot
      = Some "SELL ALL GEVO: 199 shares @ $1.5000 = $298.50"%string /\
    Portfolio.actions snapshot
      <> last (ret_actions (run_engine example_world "demo")).
Proof.
  destruct (main_exits example_world "demo" eq_refl) as (d & _ & Hmain).
  assert (Hacts : ret_actions (run_engine example_world "demo") =
            ["SELL ALL GEVO: 199 shares @ $1.5000 = $298.50"%string;
             "SELL ALL ARQ: 37 shares @ $5.0000 = $185.00"%string])
    by (by vm_compute).
  eexists _, _. split; [exact Hmain|].
  split; [reflexivity|]. split; [exact Hacts|].
  cbn [Portfolio.actions]. rewrite Hacts.
  split; [reflexivity|discriminate].
Qed.

(** ** Previous snapshot and deltas *)

Lemma select_second_to_last front row lastrow :
  select_prev_row (front ++ [row; lastrow]) = Some row.
Proof.
  unfold select_prev_row. rewrite length_app.
  change (length [row; lastrow]) with 2%nat.
  replace (2 <=? length front + 2)%nat with true
    by (symmetry; apply Nat.leb_le; lia).
  replace (length front + 2 - 2)%nat with (length front) by lia.
  by apply list_lookup_middle.
Qed.

Lemma individual_loop_zero items previous_prices quantities acc m :
  individual_loop items previous_prices quantities acc = Ok m ->
  (forall s c, acc !! s = Some c -> c = zero_change) ->
  (forall s (p p' : Qc),
     (s, p) ∈ items -> previous_prices !! s = Some p' -> p = p') ->
  forall s c, m !! s = Some c -> c = zero_change.
Proof.
  revert acc. induction items as [|[s p] items IH]; intros acc; simpl.
  - by intros [= <-].
  - intros Hloop Hacc Hsame.
    assert (Hrest : forall s' (q q' : Qc),
               (s', q) ∈ items -> previous_prices !! s' = Some q' -> q = q').
    { intros s' q q' Hin. apply Hsame. by right. }
    destruct (previous_prices !! s) as [prev_price|] eqn:Hprev;
      [|by eapply IH].
    destruct (quantities !! s) as [current_qty|]; [|done].
    eapply IH; [exact Hloop| |exact Hrest].
    intros s' c. rewrite lookup_insert. case_decide; [|by apply Hacc].
    intros [= <-].
    assert (p = prev_price) as -> by (apply (Hsame s); [by left|done]).
    unfold zero_change. f_equal.
    + ring.
    + destruct (Py.ltb (Q2Qc 0) prev_price); [|done].
      unfold Qcdiv. ring.
    + ring.
Qed.

Lemma portfolio_delta_zero (total : Qc) :
  portfolio_delta total (Num total) = zero_portfolio_change.
Proof.
  unfold portfolio_delta, zero_portfolio_change.
  replace (total - total)%Qc with (Q2Qc 0) by ring.
  destruct (Py.ltb (Q2Qc 0) total); [|done].
  assert ((Q2Qc 0 / total * Q2Qc 100)%Qc = Q2Qc 0) as ->; [|done].
  unfold Qcdiv. ring.
Qed.

(** C7, as the code has it.  With two rows or more in the history the
    previous snapshot is read from the second-to-last row; with one row,
    from that row; without a history file, with a file that cannot be read
    or with no row there is no previous snapshot, and the snapshot of the
    run then carries no delta report.  The report for a single row is
    computed against that row like any other: it is all zeros when the
    current prices and total equal the ones of the row. *)
Theorem previous_snapshot_selection :
  (forall front row lastrow,
     get_previous_day_data (Table (front ++ [row; lastrow]))
     = Some (previous_of_row row)) /\
  (forall row,
     get_previous_day_data (Table [row]) = Some (previous_of_row row)) /\
  get_previous_day_data NoHistory = None /\
  (forall msg, get_previous_day_data (Unreadable msg) = None) /\
  get_previous_day_data (Table []) = None /\
  (forall current_data, calculate_daily_changes current_data None = Ok None) /\
  (forall w API_KEY,
     api_key_set (ALPHAVANTAGE_API_KEY w) = Some API_KEY ->
     get_previous_day_data (portfolio_history_csv w) = None ->
     exists snapshot,
       snapshot_of (main w) = Some snapshot /\
       Portfolio.daily_changes snapshot = None) /\
  (forall current_data previous_data,
     (forall s, is_Some (Current.prices current_data !! s) ->
                is_Some (Current.quantities current_data !! s)) ->
     (forall s p p',
        Current.prices current_data !! s = Some p ->
        Previous.prices previous_data !! s = Some p' -> p = p') ->
     Previous.total_value previous_data
       = Num (Current.total_value current_data) ->
     exists d,
       calculate_daily_changes current_data (Some previous_data)
       = Ok (Some d) /\
       (forall s c, individual d !! s = Some c -> c = zero_change) /\
       portfolio d = zero_portfolio_change).
Proof.
  split; [|split; [|split; [|split; [|split; [|split; [|split]]]]]];
    try done.
  - intros front row lastrow. unfold get_previous_day_data.
    rewrite select_second_to_last.
    destruct (front ++ [row; lastrow]) as [|x l] eqn:E; [|done].
    by destruct front.
  - intros w API_KEY Hkey Hnone.
    destruct (main_exits w API_KEY Hkey) as (d & Hd & Hmain).
    rewrite Hnone in Hd. simpl in Hd. injection Hd as <-.
    rewrite Hmain. by eexists.
  - intros current_data previous_data Hq Hsame Htotal.
    unfold calculate_daily_changes.
    destruct (individual_loop_ok
                (map_to_list (Current.prices current_data))
                (Previous.prices previous_data)
                (Current.quantities current_data) ∅) as [m Hm].
    { intros s p Hin. apply elem_of_map_to_list in Hin. apply Hq.
      by eexists. }
    rewrite Hm. eexists. split; [reflexivity|]. simpl. split.
    + eapply individual_loop_zero; [exact Hm|done|].
      intros s p p' Hin. apply elem_of_map_to_list in Hin.
      by apply Hsame.
    + rewrite Htotal. apply portfolio_delta_zero.
Qed.

Lemma previous_snapshot_selection_witness :
  let current_data :=
    Current.mk "2025-08-19" {["GEVO"%string := Py.cents 150]}
      {["GEVO"%string := 199]} (Py.cents 47850) in
  let previous_data :=
    Previous.mk {["GEVO"%string := Py.cents 150]}
      {["GEVO"%string := Py.of_int 199]} (Num (Py.cents 47850)) in
  exists d,
    calculate_daily_changes current_data (Some previous_data)
    = Ok (Some d) /\
    (forall s c, individual d !! s = Some c -> c = zero_change) /\
    portfolio d = zero_portfolio_change.
Proof.
  intros current_data previous_data.
  refine (proj2 (proj2 (proj2 (proj2 (proj2 (proj2 (proj2
            previous_snapshot_selection))))))
            current_data previous_data _ _ eq_refl).
  - intros s [p H]. unfold current_data in *. simpl in *.
    apply lookup_singleton_Some in H as [<- _].
    by eexists.
  - intros s p p' H1 H2. unfold current_data, previous_data in *.
    simpl in *.
    apply lookup_singleton_Some in H1 as [_ <-].
    apply lookup_singleton_Some in H2 as [_ <-]. reflexivity.
Defined.

(** C7, as stated, fails: with a single row in the history (GEVO at [1.00],
    total [483.00]) and GEVO quoted at [1.50] today, the row is the previous
    snapshot and the report is not zero ([0.50] a share, [99.50] on the 199
    shares held, [483.00] on the total). *)
Lemma single_row_delta_counterexample :
  exists d c,
    portfolio_history_csv example_next_day = Table [example_row] /\
    snapshot_of (main example_next_day) ≫= Portfolio.daily_changes
    = Some d /\
    individual d !! "GEVO"%string = Some c /\
    price_change c = Py.cents 50 /\
    price_change_pct c = Py.of_int 50 /\
    value_change c = Py.cents 9950 /\
    total_change (portfolio d) = Num (Py.of_int 483) /\
    total_change_pct (portfolio d) = Num (Py.of_int 100) /\
    c <> zero_change /\ portfolio d <> zero_portfolio_change.
Proof.
  eexists _, _. split; [reflexivity|].
  split; [vm_compute; reflexivity|].
  split; [vm_compute; reflexivity|].
  split; [apply Qc_is_canon; reflexivity|].
  split; [apply Qc_is_canon; reflexivity|].
  split; [apply Qc_is_canon; reflexivity|].
  split; [simpl; f_equal; apply Qc_is_canon; reflexivity|].
  split; [simpl; f_equal; apply Qc_is_canon; reflexivity|].
  split.
  - intros H. apply (f_equal (fun x => Qnum (price_change x))) in H.
    vm_compute in H. discriminate.
  - intros H.
    apply (f_equal (fun x => match total_change x with
                             | Num q => Qnum q
                             | NaN => 0
                             end)) in H.
    vm_compute in H. discriminate.
Qed.

(** * Further properties of the engine *)

(** ** TRIM_TO *)

Lemma of_int_add (a b : Z) :
  Py.of_int (a + b) = (Py.of_int a + Py.of_int b)%Qc.
Proof.
  unfold Py.of_int, Qcplus. apply Q2Qc_eq_iff. simpl.
  by rewrite !Qred_correct, inject_Z_plus.
Qed.

Lemma of_int_sub (a b : Z) :
  Py.of_int (a - b) = (Py.of_int a - Py.of_int b)%Qc.
Proof.
  replace (Py.of_int a) with (Py.of_int ((a - b) + b)) by (f_equal; lia).
  rewrite of_int_add. ring.
Qed.

(** A TRIM_TO order on a symbol that is held above the target and priced
    sells the excess: the holding becomes the target, the cash grows by
    [(qty - target) * price] and the matching action string is appended.
    When the holding is absent or not above the target, or the price is
    unknown, the order changes nothing.  With [ARQ: 37], price [5.00] and
    target 10 the engine sells 27 shares for [135.00]. *)
Theorem trim_to_semantics :
  (forall prices o s st qty target_qty price,
     Order.symbol o = Some s -> Order.action o = Some "TRIM_TO"%string ->
     Order.target_quantity o = Some target_qty ->
     holdings st !! s = Some qty -> target_qty < qty ->
     prices !! s = Some price ->
     exists st',
       execute_order prices o st = Ok st' /\
       holdings st' = <[s := target_qty]> (holdings st) /\
       cash st' = (cash st + (Py.of_int qty - Py.of_int target_qty) * price)%Qc /\
       claude_actions st' =
         claude_actions st ++
         ["TRIM " +:+ s +:+ " to " +:+ Py.str_int target_qty
          +:+ " shares - $"
          +:+ Py.format_f 2 (Py.of_int (qty - target_qty) * price)%Qc
          +:+ " proceeds"]) /\
  (forall prices o s st target_qty,
     Order.symbol o = Some s -> Order.action o = Some "TRIM_TO"%string ->
     Order.target_quantity o = Some target_qty ->
     (forall qty, holdings st !! s = Some qty -> qty <= target_qty) \/
     prices !! s = None ->
     execute_order prices o st = Ok st) /\
  (let r := execute_trading_decisions {["ARQ"%string := 37]}
              {["ARQ"%string := Py.cents 500]} "2025-08-19"
              (Py.cents 18000) (pending [TRIM_TO "ARQ" 10]) in
   ret_holdings r = {["ARQ"%string := 10]} /\
   ret_cash r = Py.cents 31500 /\
   ret_actions r = ["TRIM ARQ to 10 shares - $135.00 proceeds"%string]).
Proof.
  split; [|split].
  - intros prices o s st qty target_qty price Hs Ha Ht Hq Hlt Hp.
    rewrite (execute_order_trim_to prices o s target_qty st Hs Ha Ht).
    unfold trim_to. rewrite Hq, Hp.
    apply Z.ltb_lt in Hlt. rewrite Hlt.
    eexists. split; [reflexivity|]. simpl.
    split; [done|]. split; [|done]. by rewrite of_int_sub.
  - intros prices o s st target_qty Hs Ha Ht Hno.
    rewrite (execute_order_trim_to prices o s target_qty st Hs Ha Ht).
    unfold trim_to. destruct Hno as [Hle|Hp].
    + destruct (holdings st !! s) as [qty|]; [|done].
      specialize (Hle qty eq_refl). apply Z.ltb_ge in Hle. by rewrite Hle.
    + rewrite Hp. destruct (holdings st !! s) as [qty|]; [|done].
      by destruct (target_qty <? qty).
  - vm_compute. repeat split. apply Qc_is_canon. reflexivity.
Qed.

Lemma trim_to_semantics_witness :
  exists st',
    execute_order {["ARQ"%string := Py.cents 500]} (TRIM_TO "ARQ" 10)
      {| holdings := {["ARQ"%string := 37]}; cash := Py.cents 18000;
         claude_actions := []; printed := [] |} = Ok st' /\
    holdings st' = <["ARQ"%string := 10]> {["ARQ"%string := 37]} /\
    cash st' =
      (Py.cents 18000 + (Py.of_int 37 - Py.of_int 10) * Py.cents 500)%Qc /\
    claude_actions st' =
      [] ++
      ["TRIM " +:+ "ARQ" +:+ " to " +:+ Py.str_int 10 +:+ " shares - $"
       +:+ Py.format_f 2 (Py.of_int (37 - 10) * Py.cents 500)%Qc
       +:+ " proceeds"].
Proof.
  exact (proj1 trim_to_semantics {["ARQ"%string := Py.cents 500]}
           (TRIM_TO "ARQ" 10) "ARQ"%string
           {| holdings := {["ARQ"%string := 37]}; cash := Py.cents 18000;
              claude_actions := []; printed := [] |}
           37 10 (Py.cents 500) eq_refl eq_refl eq_refl eq_refl eq_refl
           eq_refl).
Defined.

(** ** The shape of one step *)

(** A step of the loop leaves the variables alone, prints the HOLD line, or
    rewrites the holding of the symbol of the order, changes the cash and
    logs one action together with its echo on the output. *)
Lemma execute_order_shape prices o st st' :
  execute_order prices o st = Ok st' ->
  st' = st \/
  (exists line, Order.action o = Some "HOLD"%string /\ st' = say line st) \/
  (exists s v c msg,
     Order.symbol o = Some s /\ is_Some (prices !! s) /\
     st' = {| holdings := <[s := v]> (holdings st);
              cash := c;
              claude_actions := claude_actions st ++ [msg];
              printed := printed st ++ [executed msg] |}).
Proof.
  unfold execute_order.
  destruct (Order.symbol o) as [s|]; [|done].
  destruct (Order.action o) as [a|]; [|done].
  destruct (String.eqb a "SELL_ALL").
  { intros [= <-]. unfold sell_all.
    destruct (holdings st !! s) as [qty|]; [|by left].
    destruct (0 <? qty); [|by left].
    destruct (prices !! s) as [price|] eqn:Hp; [|by left].
    right. right. eexists s, _, _, _. rewrite Hp. eauto. }
  destruct (String.eqb a "TRIM_TO").
  { destruct (Order.target_quantity o) as [t|]; [|done].
    intros [= <-]. unfold trim_to.
    destruct (holdings st !! s) as [qty|]; [|by left].
    destruct (t <? qty); [|by left].
    destruct (prices !! s) as [price|] eqn:Hp; [|by left].
    right. right. eexists s, _, _, _. rewrite Hp. eauto. }
  destruct (String.eqb a "BUY_NEW").
  { intros [= <-]. unfold buy_new.
    destruct (_ && _); [|by left].
    destruct (prices !! s) as [price|] eqn:Hp; [|by left].
    destruct (Py.ltb (Q2Qc 0) price); [|by left].
    destruct (Py.leb _ (cash st)); [|by left].
    right. right. eexists s, _, _, _. eauto. }
  destruct (String.eqb a "HOLD") eqn:E; intros [= <-]; [|by left].
  apply String.eqb_eq in E. subst a. right. left. by eexists.
Qed.

(** ** Orders touch only their own symbol *)

Lemma execute_order_frame prices o st st' s' :
  execute_order prices o st = Ok st' ->
  Order.symbol o <> Some s' ->
  holdings st' !! s' = holdings st !! s'.
Proof.
  intros H Hne.
  apply execute_order_shape in H
    as [->|[(line & _ & ->)|(s & v & c & msg & Hs & _ & ->)]]; try done.
  simpl. apply lookup_insert_ne. intros ->. by apply Hne.
Qed.

Lemma execute_order_keeps_keys prices o st st' s' :
  execute_order prices o st = Ok st' ->
  is_Some (holdings st !! s') -> is_Some (holdings st' !! s').
Proof.
  intros H Hin.
  apply execute_order_shape in H
    as [->|[(line & _ & ->)|(s & v & c & msg & Hs & _ & ->)]]; try done.
  simpl. rewrite lookup_insert. by case_decide.
Qed.

Lemma execute_queue_frame prices queue st s' :
  Forall (fun o => Order.symbol o <> Some s') queue ->
  holdings (execute_queue prices queue st).1 !! s' = holdings st !! s'.
Proof.
  intros Hq. revert st.
  induction Hq as [|o queue Ho Hq IH]; intros st; simpl; [done|].
  destruct (execute_order prices o st) as [st1|e] eqn:E; [|done].
  rewrite IH. by eapply execute_order_frame.
Qed.

Lemma execute_queue_keeps_keys prices queue st s' :
  is_Some (holdings st !! s') ->
  is_Some (holdings (execute_queue prices queue st).1 !! s').
Proof.
  revert st. induction queue as [|o queue IH]; intros st Hin; simpl; [done|].
  destruct (execute_order prices o st) as [st1|e] eqn:E; [|done].
  apply IH. by eapply execute_order_keeps_keys.
Qed.

(** The engine changes the holding of a symbol only through an order that
    names it: a symbol that no pending order names comes back with the count
    it had (or absent as it was), whatever the other orders do, and no
    symbol is ever removed from the holdings. *)
Theorem orders_touch_only_their_symbol h prices date c file s :
  let r := execute_trading_decisions h prices date c file in
  (Forall (fun o => Order.symbol o <> Some s) (queue_of file) ->
   ret_holdings r !! s = h !! s) /\
  (is_Some (h !! s) -> is_Some (ret_holdings r !! s)).
Proof.
  intros r. subst r.
  destruct (returned_triple h prices date c file) as (-> & _ & _).
  split.
  - intros Hq. by rewrite execute_queue_frame.
  - intros Hin. by apply execute_queue_keeps_keys.
Qed.

Lemma orders_touch_only_their_symbol_witness :
  let r := execute_trading_decisions initial_holdings
             {["GEVO"%string := Py.cents 150]} "2025-08-19" initial_cash
             (pending [SELL_ALL "GEVO"]) in
  ret_holdings r !! "FEIM"%string = initial_holdings !! "FEIM"%string /\
  is_Some (ret_holdings r !! "FEIM"%string).
Proof.
  intros r.
  destruct (orders_touch_only_their_symbol initial_holdings
              {["GEVO"%string := Py.cents 150]} "2025-08-19"%string
              initial_cash (pending [SELL_ALL "GEVO"]) "FEIM"%string)
    as [Hsame Hkept].
  split.
  - apply Hsame. repeat constructor. discriminate.
  - apply Hkept. by eexists.
Defined.

(** ** Actions account for every change *)

Lemma execute_queue_account prices queue st :
  exists new lines,
    claude_actions (execute_queue prices queue st).1
      = claude_actions st ++ new /\
    printed (execute_queue prices queue st).1 = printed st ++ lines /\
    (length new <= length queue)%nat /\
    (forall a, a ∈ new -> executed a ∈ lines) /\
    (new = [] ->
     holdings (execute_queue prices queue st).1 = holdings st /\
     cash (execute_queue prices queue st).1 = cash st).
Proof.
  revert st. induction queue as [|o queue IH]; intros st; simpl.
  { exists [], []. rewrite !app_nil_r.
    split; [done|]. split; [done|]. split; [done|]. split; [|done].
    intros a Ha. by apply elem_of_nil in Ha. }
  destruct (execute_order prices o st) as [st1|e] eqn:E; simpl.
  2:{ exists [], []. rewrite !app_nil_r.
      split; [done|]. split; [done|]. split; [simpl; lia|]. split; [|done].
      intros a Ha. by apply elem_of_nil in Ha. }
  destruct (IH st1) as (new & lines & Ha & Hp & Hlen & Hecho & Hsame).
  rewrite Ha, Hp.
  apply execute_order_shape in E
    as [->|[(line & _ & ->)|(s & v & c & msg & _ & _ & ->)]]; simpl.
  - exists new, lines.
    split; [done|]. split; [done|]. split; [lia|]. split; [done|].
    intros ->. rewrite app_nil_r in Ha. by apply Hsame.
  - exists new, (line :: lines). rewrite <- app_assoc.
    split; [done|]. split; [done|]. split; [lia|]. split.
    + intros a Hin. right. by apply Hecho.
    + intros ->. by apply Hsame.
  - exists (msg :: new), (executed msg :: lines). rewrite <- !app_assoc.
    split; [done|]. split; [done|]. split; [simpl; lia|]. split; [|done].
    intros a Hin. apply elem_of_cons in Hin as [->|Hin]; [by left|].
    right. by apply Hecho.
Qed.

(** The action list accounts for everything the engine does to the state:
    when no action is returned, holdings and cash come back as they went
    in; there is at most one action per pending order; and every returned
    action was echoed on the output as an executed line. *)
Theorem actions_account_for_changes h prices date c file :
  let r := execute_trading_decisions h prices date c file in
  (ret_actions r = [] -> ret_holdings r = h /\ ret_cash r = c) /\
  (length (ret_actions r) <= length (queue_of file))%nat /\
  (forall a, a ∈ ret_actions r -> executed a ∈ output r).
Proof.
  intros r. subst r.
  destruct file as [| |msg|[tyname|d]];
    try (by (split; [|split];
             [done|simpl; lia|intros a Ha; by apply elem_of_nil in Ha])).
  unfold execute_trading_decisions, queue_of.
  destruct (execution_queue d) as [[|o queue]|] eqn:Hd;
    try (by (split; [|split];
             [done|simpl; lia|intros a Ha; by apply elem_of_nil in Ha])).
  fold (entry h c). cbn [default].
  destruct (execute_queue_account prices (o :: queue) (entry h c))
    as (new & lines & Ha & Hp & Hlen & Hecho & Hsame).
  destruct (execute_queue prices (o :: queue) (entry h c)) as [st' [e|]];
    simpl in *; rewrite Ha, Hp.
  - split; [intros ->; by apply Hsame|]. split; [exact Hlen|].
    intros a Hin. apply elem_of_app. left. right. by apply Hecho.
  - split; [intros ->; by apply Hsame|]. split; [exact Hlen|].
    intros a Hin. right. by apply Hecho.
Qed.

Lemma actions_account_for_changes_witness :
  let r := execute_trading_decisions initial_holdings
             {["GEVO"%string := Py.cents 150]} "2025-08-19" initial_cash
             (pending [SELL_ALL "SERV"; HOLD "GEVO" 199]) in
  ret_holdings r = initial_holdings /\ ret_cash r = initial_cash.
Proof.
  intros r.
  exact (proj1 (actions_account_for_changes initial_holdings
                  {["GEVO"%string := Py.cents 150]} "2025-08-19"%string
                  initial_cash (pending [SELL_ALL "SERV"; HOLD "GEVO" 199]))
           eq_refl).
Defined.

(** ** What orders do to the cash *)

Lemma Qcle_by_difference (x y d : Qc) :
  (y - x)%Qc = d -> (Q2Qc 0 <= d)%Qc -> (x <= y)%Qc.
Proof.
  intros <- Hd. apply Qcle_minus_iff. exact Hd.
Qed.

Lemma sell_all_cash prices s st :
  positive_prices prices -> (cash st <= cash (sell_all prices s st))%Qc.
Proof.
  intros Hpos. unfold sell_all.
  destruct (holdings st !! s) as [qty|]; [|apply Qcle_refl].
  destruct (0 <? qty) eqn:Hq; [|apply Qcle_refl].
  destruct (prices !! s) as [price|] eqn:Hp; [|apply Qcle_refl].
  simpl. apply Z.ltb_lt in Hq.
  apply (Qcle_by_difference _ _ (Py.of_int qty * price)%Qc); [ring|].
  apply proceeds_nonneg; [lia|by eapply Hpos].
Qed.

Lemma trim_to_cash prices s target_qty st :
  positive_prices prices ->
  (cash st <= cash (trim_to prices s target_qty st))%Qc.
Proof.
  intros Hpos. unfold trim_to.
  destruct (holdings st !! s) as [qty|]; [|apply Qcle_refl].
  destruct (target_qty <? qty) eqn:Hq; [|apply Qcle_refl].
  destruct (prices !! s) as [price|] eqn:Hp; [|apply Qcle_refl].
  simpl. apply Z.ltb_lt in Hq.
  apply (Qcle_by_difference _ _ (Py.of_int (qty - target_qty) * price)%Qc);
    [ring|].
  apply proceeds_nonneg; [lia|by eapply Hpos].
Qed.

Lemma buy_new_cash prices s target_value st :
  (cash (buy_new prices s target_value st) <= cash st)%Qc /\
  (buy_new prices s target_value st = st \/
   (cash st - target_value <= cash (buy_new prices s target_value st))%Qc).
Proof.
  unfold buy_new.
  destruct (Py.ltb (Q2Qc 0) target_value) eqn:Ht;
    [|split; [apply Qcle_refl|by left]].
  destruct (Py.leb target_value (cash st)) eqn:Hle;
    [|split; [apply Qcle_refl|by left]].
  simpl.
  destruct (prices !! s) as [price|]; [|split; [apply Qcle_refl|by left]].
  destruct (Py.ltb (Q2Qc 0) price) eqn:Hp;
    [|split; [apply Qcle_refl|by left]].
  destruct (Py.leb (Py.of_int (Py.int (target_value / price)%Qc) * price)%Qc
              (cash st)) eqn:Hcost; [|split; [apply Qcle_refl|by left]].
  apply ltb_lt in Ht, Hp. simpl. split.
  - apply (Qcle_by_difference _ _
             (Py.of_int (Py.int (target_value / price)%Qc) * price)%Qc);
      [ring|].
    apply proceeds_nonneg; [|done]. apply int_nonneg. unfold Qcdiv.
    apply Qcmult_nonneg_nonneg; [by apply Qclt_le_weak|].
    by apply Qclt_le_weak, Qcinv_pos.
  - right.
    apply (Qcle_by_difference _ _
             (target_value
              - Py.of_int (Py.int (target_value / price)%Qc) * price)%Qc);
      [ring|].
    unfold Qcminus. apply -> Qcle_minus_iff.
    apply cost_le_target; [by apply Qclt_le_weak|done].
Qed.

Lemma execute_order_cash_up prices o st st' :
  positive_prices prices ->
  Order.action o <> Some "BUY_NEW"%string ->
  execute_order prices o st = Ok st' -> (cash st <= cash st')%Qc.
Proof.
  intros Hpos Hne. unfold execute_order.
  destruct (Order.symbol o) as [s|]; [|done].
  destruct (Order.action o) as [a|]; [|done].
  destruct (String.eqb a "SELL_ALL").
  { intros [= <-]. by apply sell_all_cash. }
  destruct (String.eqb a "TRIM_TO").
  { destruct (Order.target_quantity o) as [t|]; [|done].
    intros [= <-]. by apply trim_to_cash. }
  destruct (String.eqb a "BUY_NEW") eqn:E.
  { apply String.eqb_eq in E. by subst a. }
  destruct (String.eqb a "HOLD"); intros [= <-]; apply Qcle_refl.
Qed.

Lemma execute_order_cash_down prices o st st' :
  Order.action o <> Some "SELL_ALL"%string ->
  Order.action o <> Some "TRIM_TO"%string ->
  execute_order prices o st = Ok st' -> (cash st' <= cash st)%Qc.
Proof.
  intros Hs Ht. unfold execute_order.
  destruct (Order.symbol o) as [s|]; [|done].
  destruct (Order.action o) as [a|]; [|done].
  destruct (String.eqb a "SELL_ALL") eqn:E1.
  { apply String.eqb_eq in E1. by subst a. }
  destruct (String.eqb a "TRIM_TO") eqn:E2.
  { apply String.eqb_eq in E2. by subst a. }
  destruct (String.eqb a "BUY_NEW").
  { intros [= <-]. apply buy_new_cash. }
  destruct (String.eqb a "HOLD"); intros [= <-]; apply Qcle_refl.
Qed.

(** Selling never costs and buying never pays.  At positive prices a queue
    without a BUY_NEW order returns at least the cash it was given; a queue
    without SELL_ALL and TRIM_TO orders returns at most the cash it was
    given; and one BUY_NEW spends nothing or at most its [target_value]. *)
Theorem cash_moves_with_the_order_kind :
  (forall h prices date c file,
     positive_prices prices ->
     Forall (fun o => Order.action o <> Some "BUY_NEW"%string)
       (queue_of file) ->
     (c <= ret_cash (execute_trading_decisions h prices date c file))%Qc) /\
  (forall h prices date c file,
     Forall (fun o => Order.action o <> Some "SELL_ALL"%string /\
                      Order.action o <> Some "TRIM_TO"%string)
       (queue_of file) ->
     (ret_cash (execute_trading_decisions h prices date c file) <= c)%Qc) /\
  (forall prices s target_value st,
     (cash (buy_new prices s target_value st) <= cash st)%Qc /\
     (buy_new prices s target_value st = st \/
      (cash st - target_value
       <= cash (buy_new prices s target_value st))%Qc)).
Proof.
  split; [|split; [|apply buy_new_cash]].
  - intros h prices date c file Hpos Hq.
    destruct (returned_triple h prices date c file) as (_ & -> & _).
    change c with (cash (entry h c)) at 1.
    generalize (entry h c). induction Hq as [|o queue Ho Hq IH]; intros st.
    + apply Qcle_refl.
    + simpl. destruct (execute_order prices o st) as [st1|e] eqn:E;
        [|apply Qcle_refl].
      eapply Qcle_trans; [|apply IH]. by eapply execute_order_cash_up.
  - intros h prices date c file Hq.
    destruct (returned_triple h prices date c file) as (_ & -> & _).
    change c with (cash (entry h c)) at 2.
    generalize (entry h c). induction Hq as [|o queue [Ho1 Ho2] Hq IH];
      intros st.
    + apply Qcle_refl.
    + simpl. destruct (execute_order prices o st) as [st1|e] eqn:E;
        [|apply Qcle_refl].
      eapply Qcle_trans; [apply IH|]. by eapply execute_order_cash_down.
Qed.

Lemma cash_moves_with_the_order_kind_witness :
  (initial_cash
   <= ret_cash (execute_trading_decisions initial_holdings
                  {["GEVO"%string := Py.cents 150]} "2025-08-19"
                  initial_cash (pending [SELL_ALL "GEVO"])))%Qc /\
  (ret_cash (execute_trading_decisions initial_holdings
               {["FEIM"%string := Py.cents 5000]} "2025-08-19"
               initial_cash (pending [BUY_NEW "FEIM" (Py.cents 10000)]))
   <= initial_cash)%Qc.
Proof.
  split.
  - refine (proj1 cash_moves_with_the_order_kind initial_holdings
              {["GEVO"%string := Py.cents 150]} "2025-08-19"%string
              initial_cash (pending [SELL_ALL "GEVO"]) _ _).
    + intros s p H. apply lookup_singleton_Some in H as [_ <-]. reflexivity.
    + repeat constructor. discriminate.
  - refine (proj1 (proj2 cash_moves_with_the_order_kind) initial_holdings
              {["FEIM"%string := Py.cents 5000]} "2025-08-19"%string
              initial_cash (pending [BUY_NEW "FEIM" (Py.cents 10000)]) _).
    repeat constructor; discriminate.
Defined.

(** ** Trades conserve the total value *)

Lemma contribution_insert_ne holdings prices s v s' :
  s <> s' ->
  contribution (<[s := v]> holdings) prices s'
  = contribution holdings prices s'.
Proof. intros Hne. unfold contribution. by rewrite lookup_insert_ne. Qed.

Lemma sum_contribution_insert holdings prices s v (l : list string) :
  NoDup l -> s ∈ l ->
  sum_Qc (contribution (<[s := v]> holdings) prices <$> l)
  = (sum_Qc (contribution holdings prices <$> l)
     + (contribution (<[s := v]> holdings) prices s
        - contribution holdings prices s))%Qc.
Proof.
  intros Hnd. induction Hnd as [|x l Hx Hnd IH]; intros Hin.
  { by apply elem_of_nil in Hin. }
  rewrite !fmap_cons, !sum_Qc_cons.
  destruct (decide (x = s)) as [->|Hne].
  - assert (Hrest : contribution (<[s := v]> holdings) prices <$> l
                    = contribution holdings prices <$> l).
    { apply list_fmap_ext. intros i y Hy. apply contribution_insert_ne.
      intros ->. apply Hx. by eapply list_elem_of_lookup_2. }
    rewrite Hrest. ring.
  - apply elem_of_cons in Hin as [->|Hin]; [done|].
    rewrite IH by done. rewrite contribution_insert_ne by done. ring.
Qed.

(** The contribution of a symbol whose count is not negative. *)
Lemma contribution_nonneg holdings prices s price :
  0 <= default 0 (holdings !! s) -> prices !! s = Some price ->
  contribution holdings prices s
  = (Py.of_int (default 0%Z (holdings !! s)) * price)%Qc.
Proof.
  intros Hq Hp. unfold contribution. rewrite Hp.
  destruct (holdings !! s) as [q|]; simpl in *.
  - destruct (0 <? q) eqn:E; [done|].
    apply Z.ltb_ge in E. assert (q = 0) as -> by lia.
    rewrite of_int_0. ring.
  - rewrite of_int_0. ring.
Qed.

Lemma nonneg_holdings_default holdings s :
  nonneg_holdings holdings -> 0 <= default 0 (holdings !! s).
Proof.
  intros Hh. destruct (holdings !! s) as [q|] eqn:Hq; simpl; [|lia].
  by eapply Hh.
Qed.

(** Writing a non-negative count for a priced symbol of [SYMBOLS] moves
    the valuation by the value of the shares that were added. *)
Lemma valuation_insert holdings prices cash cash' s v price :
  nonneg_holdings holdings -> 0 <= v ->
  prices !! s = Some price -> s ∈ SYMBOLS ->
  (cash' + Py.of_int v * price
   = cash + Py.of_int (default 0%Z (holdings !! s)) * price)%Qc ->
  (valuation (<[s := v]> holdings) prices cash').2
  = (valuation holdings prices cash).2.
Proof.
  intros Hh Hv Hp Hs Heq. unfold valuation. rewrite !valuation_fold.
  cbn [snd].
  rewrite (sum_contribution_insert holdings prices s v SYMBOLS
             SYMBOLS_NoDup Hs).
  rewrite (contribution_nonneg (<[s := v]> holdings) prices s price)
    by (rewrite ?lookup_insert_eq; done).
  rewrite (contribution_nonneg holdings prices s price)
    by (try apply nonneg_holdings_default; done).
  rewrite lookup_insert_eq. change (default 0 (Some v)) with v.
  generalize (sum_Qc (contribution holdings prices <$> SYMBOLS)).
  intros rest.
  transitivity
    ((cash' + Py.of_int v * price) + rest
     - Py.of_int (default 0%Z (holdings !! s)) * price)%Qc; [ring|].
  rewrite Heq. ring.
Qed.

Section Conservation.

Variable prices : gmap string Qc.
Hypothesis priced_in_SYMBOLS : forall s, is_Some (prices !! s) -> s ∈ SYMBOLS.

Lemma sell_all_conserves s st :
  nonneg_holdings (holdings st) ->
  nonneg_holdings (holdings (sell_all prices s st)) /\
  total_of prices (sell_all prices s st) = total_of prices st.
Proof.
  intros Hh. unfold sell_all.
  destruct (holdings st !! s) as [qty|] eqn:Hq; [|done].
  destruct (0 <? qty) eqn:Hpos; [|done].
  destruct (prices !! s) as [price|] eqn:Hp; [|done].
  split; [by apply nonneg_holdings_insert|].
  unfold total_of. simpl.
  apply (valuation_insert _ _ _ _ _ _ price); try done.
  - apply priced_in_SYMBOLS. by eexists.
  - rewrite Hq. simpl. rewrite of_int_0. ring.
Qed.

Lemma trim_to_conserves s target_qty st :
  0 <= target_qty -> nonneg_holdings (holdings st) ->
  nonneg_holdings (holdings (trim_to prices s target_qty st)) /\
  total_of prices (trim_to prices s target_qty st) = total_of prices st.
Proof.
  intros Ht Hh. unfold trim_to.
  destruct (holdings st !! s) as [qty|] eqn:Hq; [|done].
  destruct (target_qty <? qty) eqn:Hlt; [|done].
  destruct (prices !! s) as [price|] eqn:Hp; [|done].
  split; [by apply nonneg_holdings_insert|].
  unfold total_of. simpl.
  apply (valuation_insert _ _ _ _ _ _ price); try done.
  - apply priced_in_SYMBOLS. by eexists.
  - rewrite Hq. simpl. rewrite of_int_sub. ring.
Qed.

Lemma buy_new_conserves s target_value st :
  nonneg_holdings (holdings st) ->
  nonneg_holdings (holdings (buy_new prices s target_value st)) /\
  total_of prices (buy_new prices s target_value st) = total_of prices st.
Proof.
  intros Hh. unfold buy_new.
  destruct (Py.ltb (Q2Qc 0) target_value) eqn:Ht; [|done].
  destruct (Py.leb target_value (cash st)) eqn:Hle; [|done]. simpl.
  destruct (prices !! s) as [price|] eqn:Hp; [|done].
  destruct (Py.ltb (Q2Qc 0) price) eqn:Hpos; [|done].
  destruct (Py.leb (Py.of_int (Py.int (target_value / price)%Qc) * price)%Qc
              (cash st)) eqn:Hcost; [|done].
  apply ltb_lt in Ht, Hpos.
  assert (Hshares : 0 <= Py.int (target_value / price)%Qc).
  { apply int_nonneg. unfold Qcdiv.
    apply Qcmult_nonneg_nonneg; [by apply Qclt_le_weak|].
    by apply Qclt_le_weak, Qcinv_pos. }
  pose proof (nonneg_holdings_default (holdings st) s Hh) as Hq.
  split; [apply nonneg_holdings_insert; [done|lia]|].
  unfold total_of. simpl.
  apply (valuation_insert _ _ _ _ _ _ price); try done; [lia| |].
  - apply priced_in_SYMBOLS. by eexists.
  - rewrite of_int_add. ring.
Qed.

Lemma execute_order_conserves o st st' :
  nonneg_target o -> nonneg_holdings (holdings st) ->
  execute_order prices o st = Ok st' ->
  nonneg_holdings (holdings st') /\ total_of prices st' = total_of prices st.
Proof.
  intros Ht Hh. unfold execute_order.
  destruct (Order.symbol o) as [s|]; [|done].
  destruct (Order.action o) as [a|] eqn:Ha; [|done].
  destruct (String.eqb a "SELL_ALL") eqn:E1.
  { intros [= <-]. by apply sell_all_conserves. }
  destruct (String.eqb a "TRIM_TO") eqn:E2.
  { apply String.eqb_eq in E2. subst a.
    destruct (Order.target_quantity o) as [t|] eqn:Hq; [|done].
    intros [= <-]. apply trim_to_conserves; [|done]. by apply Ht. }
  destruct (String.eqb a "BUY_NEW") eqn:E3.
  { intros [= <-]. by apply buy_new_conserves. }
  destruct (String.eqb a "HOLD") eqn:E4; intros [= <-]; done.
Qed.

Lemma execute_queue_conserves queue st :
  Forall nonneg_target queue -> nonneg_holdings (holdings st) ->
  total_of prices (execute_queue prices queue st).1 = total_of prices st.
Proof.
  intros Hq. revert st.
  induction Hq as [|o queue Ho Hq IH]; intros st Hh; simpl; [done|].
  destruct (execute_order prices o st) as [st1|e] eqn:E; [|done].
  destruct (execute_order_conserves o st st1 Ho Hh E) as [Hh1 <-].
  by apply IH.
Qed.

End Conservation.

Lemma initial_holdings_nonneg : nonneg_holdings initial_holdings.
Proof.
  intros s q H. unfold initial_holdings in H.
  repeat (rewrite lookup_insert in H; case_decide;
          [injection H as <-; lia|]).
  by rewrite lookup_empty in H.
Qed.

(** Executing orders at the prices of the run moves value between cash and
    holdings and never creates or destroys any: from holdings without a
    negative count and pending TRIM_TO orders without a negative target, the
    total value of what the engine returns equals the total value of what it
    was given, whatever orders execute and even when one of them raises.
    The total that [main] reports is therefore the value of the portfolio
    it loaded, at the prices of the day. *)
Theorem trades_conserve_total_value :
  (forall h prices date c file,
     nonneg_holdings h -> Forall nonneg_target (queue_of file) ->
     (forall s, is_Some (prices !! s) -> s ∈ SYMBOLS) ->
     let r := execute_trading_decisions h prices date c file in
     spec_total_value (ret_holdings r) prices (ret_cash r)
     = spec_total_value h prices c) /\
  (forall w API_KEY,
     api_key_set (ALPHAVANTAGE_API_KEY w) = Some API_KEY ->
     nonneg_holdings (start_holdings w) ->
     Forall nonneg_target (queue_of (trading_decisions_json w)) ->
     exists snapshot,
       snapshot_of (main w) = Some snapshot /\
       Portfolio.total_value snapshot
       = Py.format_f 2
           (spec_total_value (start_holdings w) (run_prices w API_KEY)
              (start_cash w))).
Proof.
  assert (Hengine : forall h prices date c file,
     nonneg_holdings h -> Forall nonneg_target (queue_of file) ->
     (forall s, is_Some (prices !! s) -> s ∈ SYMBOLS) ->
     let r := execute_trading_decisions h prices date c file in
     spec_total_value (ret_holdings r) prices (ret_cash r)
     = spec_total_value h prices c).
  { intros h prices date c file Hh Hq Hdom r. subst r.
    rewrite <- !valuation_total by done.
    destruct (returned_triple h prices date c file) as (-> & -> & _).
    apply (execute_queue_conserves prices Hdom (queue_of file) (entry h c));
      done. }
  split; [exact Hengine|].
  intros w API_KEY Hkey Hh Hq.
  destruct (main_exits w API_KEY Hkey) as (d & _ & Hmain).
  rewrite Hmain. eexists. split; [reflexivity|]. simpl.
  rewrite valuation_total by (intros s; apply fetch_prices_symbols).
  f_equal. apply Hengine; try done. intros s. apply fetch_prices_symbols.
Qed.

Lemma trades_conserve_total_value_witness :
  exists snapshot,
    snapshot_of (main example_world) = Some snapshot /\
    Portfolio.total_value snapshot
    = Py.format_f 2
        (spec_total_value (start_holdings example_world)
           (run_prices example_world "demo") (start_cash example_world)).
Proof.
  refine (proj2 trades_conserve_total_value example_world "demo"%string
            eq_refl initial_holdings_nonneg _).
  repeat constructor; intros H; discriminate H.
Defined.

(** ** Running again *)

Lemma incomplete_raises o :
  ~ complete o ->
  exists e, forall prices st, execute_order prices o st = Raise e.
Proof.
  intros Hno. unfold execute_order.
  destruct (Order.symbol o) as [s|] eqn:Hs; [|by eexists].
  destruct (Order.action o) as [a|] eqn:Ha; [|by eexists].
  destruct (decide (a = "TRIM_TO"%string)) as [->|Hne].
  - destruct (Order.target_quantity o) as [t|] eqn:Ht; [|by eexists].
    exfalso. apply Hno. unfold complete. rewrite Hs, Ha, Ht. eauto.
  - exfalso. apply Hno. unfold complete. rewrite Hs, Ha.
    split; [eauto|]. split; [eauto|]. intros [= ->]. done.
Qed.

Lemma raise_returns_prefix_state h prices date c decisions_data pre bad
  post st e :
  execution_queue decisions_data = Some (pre ++ bad :: post) ->
  execute_queue prices pre (entry h c) = (st, None) ->
  execute_order prices bad st = Raise e ->
  let r := execute_trading_decisions h prices date c
             (Parsed (Dict decisions_data)) in
  ret_holdings r = holdings st /\
  ret_cash r = cash st /\
  ret_actions r = claude_actions st /\
  file_after r = Parsed (Dict decisions_data).
Proof.
  intros Hd Hpre Hbad r. subst r.
  pose proof (execute_queue_raise prices pre bad post _ st e Hpre Hbad) as Hq.
  unfold execute_trading_decisions. rewrite Hd. fold (entry h c).
  destruct (pre ++ bad :: post) as [|o queue] eqn:Happ.
  { by destruct pre. }
  by rewrite Hq.
Qed.

Lemma empty_queue_noop h prices date c file :
  queue_of file = [] ->
  let r := execute_trading_decisions h prices date c file in
  ret_holdings r = h /\ ret_cash r = c /\ ret_actions r = [] /\
  file_after r = file.
Proof.
  intros Hq r. subst r.
  destruct file as [| |msg|[tyname|d]]; try done.
  unfold queue_of in Hq. unfold execute_trading_decisions.
  destruct (execution_queue d) as [[|o queue]|]; done.
Qed.

Lemma complete_run_empties h prices date c file :
  Forall complete (queue_of file) ->
  queue_of (file_after (execute_trading_decisions h prices date c file)) = [].
Proof.
  intros Hq.
  destruct file as [| |msg|[tyname|d]]; try done.
  unfold queue_of in Hq. unfold execute_trading_decisions.
  destruct (execution_queue d) as [[|o queue]|] eqn:Hd; simpl in Hq.
  - simpl. by rewrite Hd.
  - fold (entry h c).
    destruct (complete_queue_no_raise prices (o :: queue) (entry h c) Hq)
      as [st' ->].
    done.
  - simpl. by rewrite Hd.
Qed.

Lemma second_run_noop h prices prices2 date date2 c file :
  Forall complete (queue_of file) ->
  let r1 := execute_trading_decisions h prices date c file in
  let r2 := execute_trading_decisions (ret_holdings r1) prices2 date2
              (ret_cash r1) (file_after r1) in
  ret_holdings r2 = ret_holdings r1 /\
  ret_cash r2 = ret_cash r1 /\
  ret_actions r2 = [] /\
  file_after r2 = file_after r1.
Proof.
  intros Hq r1 r2. subst r2.
  apply empty_queue_noop. by apply complete_run_empties.
Qed.

(** The queue is consumed once.  When every pending order has the keys the
    loop reads, a second call of the engine on what the first call returned
    and left behind, at any prices and on any date, returns the same
    holdings and cash, no action, and leaves the queue file as the first
    call left it.  When an order lacks a key the pending list stays as it
    was, and the second call applies the orders before the faulty one a
    second time. *)
Theorem second_run_executes_nothing :
  (forall h prices prices2 date date2 c file,
     Forall complete (queue_of file) ->
     let r1 := execute_trading_decisions h prices date c file in
     let r2 := execute_trading_decisions (ret_holdings r1) prices2 date2
                 (ret_cash r1) (file_after r1) in
     ret_holdings r2 = ret_holdings r1 /\
     ret_cash r2 = ret_cash r1 /\
     ret_actions r2 = [] /\
     file_after r2 = file_after r1) /\
  (forall h prices prices2 date date2 c decisions_data pre bad post,
     execution_queue decisions_data = Some (pre ++ bad :: post) ->
     Forall complete pre -> ~ complete bad ->
     let r1 := execute_trading_decisions h prices date c
                 (Parsed (Dict decisions_data)) in
     let r2 := execute_trading_decisions (ret_holdings r1) prices2 date2
                 (ret_cash r1) (file_after r1) in
     let again := (execute_queue prices2 pre
                     (entry (ret_holdings r1) (ret_cash r1))).1 in
     file_after r1 = Parsed (Dict decisions_data) /\
     ret_holdings r2 = holdings again /\
     ret_cash r2 = cash again /\
     ret_actions r2 = claude_actions again).
Proof.
  split.
  - intros h prices prices2 date date2 c file Hq.
    by apply second_run_noop.
  - intros h prices prices2 date date2 c d pre bad post Hd Hpre Hbad
      r1 r2 again. subst r2 again.
    destruct (incomplete_raises bad Hbad) as [e He].
    destruct (complete_queue_no_raise prices pre (entry h c) Hpre)
      as [st1 Hst1].
    destruct (raise_returns_prefix_state h prices date c d
                pre bad post st1 e Hd Hst1 (He prices st1))
      as (_ & _ & _ & Hfile).
    fold r1 in Hfile. split; [exact Hfile|]. rewrite Hfile.
    destruct (complete_queue_no_raise prices2 pre
                (entry (ret_holdings r1) (ret_cash r1)) Hpre)
      as [st2 Hst2].
    destruct (raise_returns_prefix_state (ret_holdings r1)
                prices2 date2 (ret_cash r1) d pre bad post st2 e Hd Hst2
                (He prices2 st2))
      as (-> & -> & -> & _).
    by rewrite Hst2.
Qed.

Lemma second_run_executes_nothing_witness :
  let r1 := execute_trading_decisions initial_holdings
              {["GEVO"%string := Py.cents 150]} "2025-08-19" initial_cash
              (pending [SELL_ALL "GEVO"]) in
  let r2 := execute_trading_decisions (ret_holdings r1)
              {["GEVO"%string := Py.cents 200]} "2025-08-20"
              (ret_cash r1) (file_after r1) in
  ret_holdings r2 = ret_holdings r1 /\
  ret_cash r2 = ret_cash r1 /\
  ret_actions r2 = [] /\
  file_after r2 = file_after r1.
Proof.
  refine (proj1 second_run_executes_nothing initial_holdings
            {["GEVO"%string := Py.cents 150]}
            {["GEVO"%string := Py.cents 200]}
            "2025-08-19"%string "2025-08-20"%string initial_cash
            (pending [SELL_ALL "GEVO"]) _).
  repeat constructor; simpl; eauto; discriminate.
Defined.

(** ** Two runs of [main] *)

(** What a run saves is what the next run loads.  After a run whose pending
    orders all had their keys, a later run that finds the three state files
    as this run left them (with any price source, key and date) saves the
    same holdings, cash and queue record again, and writes a snapshot
    without an action and with its flag off. *)
Theorem next_main_run_keeps_the_state w API_KEY w' w2 API_KEY2 :
  api_key_set (ALPHAVANTAGE_API_KEY w) = Some API_KEY ->
  Forall complete (queue_of (trading_decisions_json w)) ->
  main w = Exited 0 w' ->
  holdings_json w2 = holdings_json w' ->
  cash_json w2 = cash_json w' ->
  trading_decisions_json w2 = trading_decisions_json w' ->
  api_key_set (ALPHAVANTAGE_API_KEY w2) = Some API_KEY2 ->
  exists w3 snapshot,
    main w2 = Exited 0 w3 /\
    holdings_json w3 = holdings_json w' /\
    cash_json w3 = cash_json w' /\
    trading_decisions_json w3 = trading_decisions_json w' /\
    latest_json w3 = Some snapshot /\
    Portfolio.actions snapshot = None /\
    Portfolio.claude_decisions_executed snapshot = false.
Proof.
  intros Hkey Hq Hmain Hh Hc Hf Hkey2.
  destruct (main_exits w API_KEY Hkey) as (d & _ & Hmain').
  rewrite Hmain in Hmain'. injection Hmain' as ->.
  simpl in Hh, Hc, Hf.
  destruct (main_exits w2 API_KEY2 Hkey2) as (d2 & _ & Hmain2).
  assert (Hsecond :
    ret_holdings (run_engine w2 API_KEY2) = ret_holdings (run_engine w API_KEY)
    /\ ret_cash (run_engine w2 API_KEY2) = ret_cash (run_engine w API_KEY)
    /\ ret_actions (run_engine w2 API_KEY2) = []
    /\ file_after (run_engine w2 API_KEY2)
       = file_after (run_engine w API_KEY)).
  { assert (E : run_engine w2 API_KEY2
                = execute_trading_decisions
                    (ret_holdings (run_engine w API_KEY))
                    (run_prices w2 API_KEY2) (today w2)
                    (ret_cash (run_engine w API_KEY))
                    (file_after (run_engine w API_KEY))).
    { unfold run_engine at 1. unfold start_holdings, start_cash.
      by rewrite Hh, Hc, Hf. }
    rewrite E.
    exact (second_run_noop (start_holdings w) (run_prices w API_KEY)
             (run_prices w2 API_KEY2) (today w) (today w2) (start_cash w)
             (trading_decisions_json w) Hq). }
  destruct Hsecond as (H1 & H2 & H3 & H4).
  eexists _, _. split; [exact Hmain2|]. simpl.
  rewrite H1, H2, H3, H4. done.
Qed.

Lemma next_main_run_keeps_the_state_witness :
  exists w3 snapshot,
    main example_after = Exited 0 w3 /\
    holdings_json w3 = holdings_json example_after /\
    cash_json w3 = cash_json example_after /\
    trading_decisions_json w3 = trading_decisions_json example_after /\
    latest_json w3 = Some snapshot /\
    Portfolio.actions snapshot = None /\
    Portfolio.claude_decisions_executed snapshot = false.
Proof.
  refine (next_main_run_keeps_the_state example_world "demo"%string
            example_after example_after "demo"%string eq_refl _ _
            eq_refl eq_refl eq_refl eq_refl).
  - repeat constructor; simpl; eauto; discriminate.
  - unfold example_after.
    destruct (main_exits example_world "demo" eq_refl) as (d & _ & ->).
    reflexivity.
Defined.

(** * Further properties of the price source *)

Lemma fetch_prices_fold_lookup (get_price : string -> option Qc) l
  (acc : gmap string Qc) s :
  foldl (fetch_step get_price) acc l !! s =
  if decide (s ∈ l) then
    match get_price s with
    | Some p => if Py.eqb p (Q2Qc 0) then acc !! s else Some p
    | None => acc !! s
    end
  else acc !! s.
Proof.
  revert acc. induction l as [|x l IH]; intros acc.
  { simpl. destruct (decide (s ∈ [])) as [Hin|_]; [|done].
    by apply elem_of_nil in Hin. }
  simpl. rewrite IH.
  assert (Hstep : fetch_step get_price acc x !! s =
            if decide (x = s) then
              match get_price s with
              | Some p => if Py.eqb p (Q2Qc 0) then acc !! s else Some p
              | None => acc !! s
              end
            else acc !! s).
  { unfold fetch_step. destruct (decide (x = s)) as [->|Hne].
    - destruct (get_price s) as [p|]; [|done].
      destruct (Py.eqb p (Q2Qc 0)); [done|]. by rewrite lookup_insert_eq.
    - destruct (get_price x) as [p|]; [|done].
      destruct (Py.eqb p (Q2Qc 0)); [done|]. by rewrite lookup_insert_ne. }
  rewrite Hstep. clear Hstep IH.
  destruct (decide (x = s)) as [->|Hne].
  - rewrite (decide_True (P := s ∈ s :: l)) by (by left).
    destruct (decide (s ∈ l)); [|done].
    destruct (get_price s) as [p|]; [|done].
    by destruct (Py.eqb p (Q2Qc 0)).
  - destruct (decide (s ∈ l)) as [Hin|Hnot].
    + by rewrite (decide_True (P := s ∈ x :: l)) by (by right).
    + rewrite (decide_False (P := s ∈ x :: l)); [done|].
      intros [->|Hin]%elem_of_cons; done.
Qed.

(** The price map of a run holds exactly the symbols of [SYMBOLS] for which
    the price source returned a price other than zero, each with that
    price: a symbol outside [SYMBOLS] is never priced, and neither is a
    symbol for which the source returned nothing or [0.0]. *)
Theorem fetch_prices_lookup (get_price : string -> option Qc) s p :
  fetch_prices get_price !! s = Some p <->
  s ∈ SYMBOLS /\ get_price s = Some p /\ p <> Q2Qc 0.
Proof.
  unfold fetch_prices. rewrite fetch_prices_fold_lookup, lookup_empty.
  destruct (decide (s ∈ SYMBOLS)) as [Hin|Hnot].
  - destruct (get_price s) as [q|].
    + destruct (Py.eqb q (Q2Qc 0)) eqn:E.
      * apply eqb_eq in E. subst q. split; [done|].
        intros (_ & [= <-] & Hne). done.
      * split.
        -- intros [= <-]. repeat split; [done|]. intros ->.
           assert (Py.eqb (Q2Qc 0) (Q2Qc 0) = true) by (by apply eqb_eq).
           congruence.
        -- by intros (_ & [= <-] & _).
    + split; [done|]. by intros (_ & [=] & _).
  - split; [done|]. by intros (? & _).
Qed.

(** ** The alias retry *)

(** [get_alpha_vantage_price] requests the ticker it was given and, at
    most, the alias [MYO] after it.  The alias is requested exactly when
    the symbol is [MYOMO] and the first reply decoded to an object without
    a quoted price, without an error message and without a note; an error
    reply, a rate-limit note or a failed request never triggers it. *)
Theorem alias_retry_only_for_myomo http symbol api_key :
  let r := AlphaVantage.get_alpha_vantage_price http symbol api_key in
  (AlphaVantage.requested r = [symbol] \/
   AlphaVantage.requested r = [symbol; "MYO"%string]) /\
  (AlphaVantage.requested r = [symbol; "MYO"%string] <->
   symbol = "MYOMO"%string /\
   exists d,
     http symbol api_key = AlphaVantage.Json d /\
     AlphaVantage.quoted d = None /\
     AlphaVantage.error_message d = None /\
     AlphaVantage.note d = None).
Proof.
  intros r. subst r. unfold AlphaVantage.get_alpha_vantage_price.
  destruct (http symbol api_key) as [err|d] eqn:Hfirst.
  { split; [by left|]. split; [done|]. by intros (_ & d & [=] & _). }
  destruct (AlphaVantage.quoted d) as [[p|err]|] eqn:Hq.
  { split; [by left|]. split; [done|].
    intros (_ & d' & [= <-] & Hq' & _). congruence. }
  { split; [by left|]. split; [done|].
    intros (_ & d' & [= <-] & Hq' & _). congruence. }
  destruct (AlphaVantage.error_message d) as [msg|] eqn:He.
  { split; [by left|]. split; [done|].
    intros (_ & d' & [= <-] & _ & He' & _). congruence. }
  destruct (AlphaVantage.note d) as [msg|] eqn:Hn.
  { split; [by left|]. split; [done|].
    intros (_ & d' & [= <-] & _ & _ & Hn'). congruence. }
  destruct (String.eqb symbol "MYOMO") eqn:E.
  - apply String.eqb_eq in E. subst symbol.
    assert (Hyes : "MYOMO"%string = "MYOMO"%string /\
              exists d', AlphaVantage.Json d = AlphaVantage.Json d' /\
                AlphaVantage.quoted d' = None /\
                AlphaVantage.error_message d' = None /\
                AlphaVantage.note d' = None) by eauto 10.
    destruct (http "MYO"%string api_key) as [err|d2];
      [|destruct (AlphaVantage.quoted d2) as [[p|err]|]];
      (split; [by right|done]).
  - apply String.eqb_neq in E.
    split; [by left|]. split; [done|]. by intros (? & _).
Qed.

(** ** Where a price comes from *)

(** A price returned by [get_alpha_vantage_price] is the quoted price of a
    reply to one of the requests it made.  A quoted price in the first
    reply is returned at once, with no further request and nothing printed;
    a first reply that cannot be decoded, whose price text is not a number,
    or that carries an error message or a note and no price gives no price
    and exactly one printed line. *)
Theorem price_comes_from_a_quote http symbol api_key :
  let r := AlphaVantage.get_alpha_vantage_price http symbol api_key in
  (forall p,
     AlphaVantage.price r = Some p ->
     exists ticker d,
       ticker ∈ AlphaVantage.requested r /\
       http ticker api_key = AlphaVantage.Json d /\
       AlphaVantage.quoted d = Some (AlphaVantage.Float p)) /\
  (forall d p,
     http symbol api_key = AlphaVantage.Json d ->
     AlphaVantage.quoted d = Some (AlphaVantage.Float p) ->
     AlphaVantage.price r = Some p /\
     AlphaVantage.requested r = [symbol] /\
     AlphaVantage.printed r = []) /\
  ((exists err, http symbol api_key = AlphaVantage.Fails err) \/
   (exists d,
      http symbol api_key = AlphaVantage.Json d /\
      ((exists err,
          AlphaVantage.quoted d = Some (AlphaVantage.NotFloat err)) \/
       (AlphaVantage.quoted d = None /\
        (is_Some (AlphaVantage.error_message d) \/
         is_Some (AlphaVantage.note d))))) ->
   AlphaVantage.price r = None /\
   AlphaVantage.requested r = [symbol] /\
   length (AlphaVantage.printed r) = 1%nat).
Proof.
  intros r. subst r. unfold AlphaVantage.get_alpha_vantage_price.
  destruct (http symbol api_key) as [err|d] eqn:Hfirst.
  { split; [done|]. split; [done|]. done. }
  destruct (AlphaVantage.quoted d) as [[p|err]|] eqn:Hq.
  - split; [|split].
    + intros p' [= <-]. exists symbol, d. split; [by left|done].
    + intros d' p' [= <-]. rewrite Hq. by intros [= <-].
    + intros [[err [=]]|(d' & [= <-] & [[err Hq']|[Hq' _]])]; congruence.
  - split; [done|]. split; [|done].
    intros d' p' [= <-]. congruence.
  - split; [|split].
    + destruct (AlphaVantage.error_message d) as [msg|]; [done|].
      destruct (AlphaVantage.note d) as [msg|]; [done|].
      destruct (String.eqb symbol "MYOMO"); [|done].
      destruct (http "MYO"%string api_key) as [err|d2] eqn:Hsecond; [done|].
      destruct (AlphaVantage.quoted d2) as [[p|err]|] eqn:Hq2; try done.
      intros p' [= <-]. exists "MYO"%string, d2.
      split; [right; by left|done].
    + intros d' p' [= <-]. congruence.
    + intros [[err [=]]|(d' & [= <-] & [[err Hq']|[_ Hsome]])];
        [congruence|].
      destruct (AlphaVantage.error_message d) as [msg|]; [done|].
      destruct (AlphaVantage.note d) as [msg|]; [done|].
      destruct Hsome as [[? [=]]|[? [=]]].
Qed.

Lemma price_comes_from_a_quote_witness :
  let http := fun ticker (_ : string) =>
    if String.eqb ticker "MYO"
    then AlphaVantage.Json
           (AlphaVantage.mk
              (Some (Some (AlphaVantage.Float (Py.cents 725)))) None None
              "{'Global Quote': {'05. price': '7.2500'}}")
    else AlphaVantage.Json
           (AlphaVantage.mk (Some None) None None "{'Global Quote': {}}") in
  let r := AlphaVantage.get_alpha_vantage_price http "MYOMO" "demo" in
  exists ticker d,
    ticker ∈ AlphaVantage.requested r /\
    http ticker "demo"%string = AlphaVantage.Json d /\
    AlphaVantage.quoted d = Some (AlphaVantage.Float (Py.cents 725)).
Proof.
  intros http r.
  exact (proj1 (price_comes_from_a_quote http "MYOMO" "demo")
           (Py.cents 725) eq_refl).
Defined.

(** * Further properties of the history *)

(** ** What is read from a row *)

Lemma read_symbol_fold prev_row l (acc : gmap string Qc * gmap string Qc) s :
  let kept :=
    match columns prev_row !! (s +:+ "_price"),
          columns prev_row !! (s +:+ "_qty") with
    | Some (Num price), Some (Num qty) =>
        if Py.ltb (Q2Qc 0) qty then Some (price, qty) else None
    | _, _ => None
    end in
  let final := foldl (read_symbol prev_row) acc l in
  final.1 !! s
  = (if decide (s ∈ l)
     then match kept with Some pq => Some pq.1 | None => acc.1 !! s end
     else acc.1 !! s) /\
  final.2 !! s
  = (if decide (s ∈ l)
     then match kept with Some pq => Some pq.2 | None => acc.2 !! s end
     else acc.2 !! s).
Proof.
  intros kept final. subst final. revert acc.
  induction l as [|x l IH]; intros acc.
  { simpl. destruct (decide (s ∈ [])) as [Hin|_]; [|done].
    by apply elem_of_nil in Hin. }
  simpl. destruct (IH (read_symbol prev_row acc x)) as [-> ->]. clear IH.
  assert (Hstep :
    (read_symbol prev_row acc x).1 !! s
    = (if decide (x = s)
       then match kept with Some pq => Some pq.1 | None => acc.1 !! s end
       else acc.1 !! s) /\
    (read_symbol prev_row acc x).2 !! s
    = (if decide (x = s)
       then match kept with Some pq => Some pq.2 | None => acc.2 !! s end
       else acc.2 !! s)).
  { unfold read_symbol. destruct (decide (x = s)) as [->|Hne].
    - subst kept.
      destruct (columns prev_row !! (s +:+ "_price")) as [[|price]|];
        try done.
      destruct (columns prev_row !! (s +:+ "_qty")) as [[|qty]|]; try done.
      destruct (Py.ltb (Q2Qc 0) qty); [|done].
      simpl. by rewrite !lookup_insert_eq.
    - destruct (columns prev_row !! (x +:+ "_price")) as [[|price]|];
        try done.
      destruct (columns prev_row !! (x +:+ "_qty")) as [[|qty]|]; try done.
      destruct (Py.ltb (Q2Qc 0) qty); [|done].
      simpl. by rewrite !lookup_insert_ne. }
  destruct Hstep as [-> ->].
  destruct (decide (x = s)) as [->|Hne].
  - rewrite !(decide_True (P := s ∈ s :: l)) by (by left).
    destruct (decide (s ∈ l)); [|done]. by destruct kept.
  - destruct (decide (s ∈ l)) as [Hin|Hnot].
    + by rewrite !(decide_True (P := s ∈ x :: l)) by (by right).
    + rewrite !(decide_False (P := s ∈ x :: l)); [done|..];
        intros [->|Hin]%elem_of_cons; done.
Qed.

Lemma previous_of_row_fold prev_row :
  Previous.prices (previous_of_row prev_row)
  = (foldl (read_symbol prev_row) (∅, ∅) SYMBOLS).1 /\
  Previous.quantities (previous_of_row prev_row)
  = (foldl (read_symbol prev_row) (∅, ∅) SYMBOLS).2 /\
  Previous.total_value (previous_of_row prev_row)
  = default (Num (Q2Qc 0)) (columns prev_row !! "total_value"%string).
Proof.
  unfold previous_of_row.
  by destruct (foldl (read_symbol prev_row) (∅, ∅) SYMBOLS).
Qed.

Lemma previous_prices_lookup prev_row s p :
  Previous.prices (previous_of_row prev_row) !! s = Some p <->
  s ∈ SYMBOLS /\
  columns prev_row !! (s +:+ "_price") = Some (Num p) /\
  exists q, columns prev_row !! (s +:+ "_qty") = Some (Num q) /\
            (Q2Qc 0 < q)%Qc.
Proof.
  destruct (previous_of_row_fold prev_row) as (Hp & _ & _). rewrite Hp.
  destruct (read_symbol_fold prev_row SYMBOLS (∅, ∅) s) as [-> _].
  simpl. rewrite lookup_empty.
  destruct (decide (s ∈ SYMBOLS)) as [Hin|Hnot];
    [|split; [done|by intros (? & _)]].
  destruct (columns prev_row !! (s +:+ "_price")) as [[|price]|];
    try (split; [done|by intros (_ & [=] & _)]).
  destruct (columns prev_row !! (s +:+ "_qty")) as [[|qty]|];
    try (split; [done|by intros (_ & _ & ? & [=] & _)]).
  destruct (Py.ltb (Q2Qc 0) qty) eqn:E.
  - apply ltb_lt in E. simpl. split.
    + intros [= <-]. eauto.
    + by intros (_ & [= <-] & _).
  - apply ltb_ge in E. split; [done|].
    intros (_ & _ & q & [= <-] & Hpos). by apply Qclt_not_le in Hpos.
Qed.

Lemma previous_quantities_lookup prev_row s q :
  Previous.quantities (previous_of_row prev_row) !! s = Some q <->
  s ∈ SYMBOLS /\
  columns prev_row !! (s +:+ "_qty") = Some (Num q) /\
  (Q2Qc 0 < q)%Qc /\
  exists p, columns prev_row !! (s +:+ "_price") = Some (Num p).
Proof.
  destruct (previous_of_row_fold prev_row) as (_ & Hq & _). rewrite Hq.
  destruct (read_symbol_fold prev_row SYMBOLS (∅, ∅) s) as [_ ->].
  simpl. rewrite lookup_empty.
  destruct (decide (s ∈ SYMBOLS)) as [Hin|Hnot];
    [|split; [done|by intros (? & _)]].
  destruct (columns prev_row !! (s +:+ "_price")) as [[|price]|];
    try (split; [done|by intros (_ & _ & _ & ? & [=])]).
  destruct (columns prev_row !! (s +:+ "_qty")) as [[|qty]|];
    try (split; [done|by intros (_ & [=] & _)]).
  destruct (Py.ltb (Q2Qc 0) qty) eqn:E.
  - apply ltb_lt in E. simpl. split.
    + intros [= <-]. eauto.
    + by intros (_ & [= <-] & _).
  - apply ltb_ge in E. split; [done|].
    intros (_ & [= <-] & Hpos & _). by apply Qclt_not_le in Hpos.
Qed.

(** The previous snapshot read from a row keeps a symbol exactly when it is
    one of [SYMBOLS], the row has both of its columns, its price is not NaN
    and its quantity is a number above zero; prices and quantities are kept
    for the same symbols.  A row without a [total_value] column gives the
    total zero. *)
Theorem previous_snapshot_contents prev_row :
  (forall s p,
     Previous.prices (previous_of_row prev_row) !! s = Some p <->
     s ∈ SYMBOLS /\
     columns prev_row !! (s +:+ "_price") = Some (Num p) /\
     exists q, columns prev_row !! (s +:+ "_qty") = Some (Num q) /\
               (Q2Qc 0 < q)%Qc) /\
  (forall s q,
     Previous.quantities (previous_of_row prev_row) !! s = Some q <->
     s ∈ SYMBOLS /\
     columns prev_row !! (s +:+ "_qty") = Some (Num q) /\
     (Q2Qc 0 < q)%Qc /\
     exists p, columns prev_row !! (s +:+ "_price") = Some (Num p)) /\
  dom (Previous.prices (previous_of_row prev_row))
  = dom (Previous.quantities (previous_of_row prev_row)) /\
  (columns prev_row !! "total_value"%string = None ->
   Previous.total_value (previous_of_row prev_row) = Num (Q2Qc 0)).
Proof.
  split; [apply previous_prices_lookup|].
  split; [apply previous_quantities_lookup|]. split.
  - apply set_eq. intros s. rewrite !elem_of_dom. split.
    + intros [p H].
      apply previous_prices_lookup in H as (Hs & Hpc & q & Hqc & Hpos).
      exists q. apply previous_quantities_lookup. eauto.
    + intros [q H].
      apply previous_quantities_lookup in H as (Hs & Hqc & Hpos & p & Hpc).
      exists p. apply previous_prices_lookup. eauto.
  - intros Hnone.
    destruct (previous_of_row_fold prev_row) as (_ & _ & Ht).
    by rewrite Ht, Hnone.
Qed.

Lemma previous_snapshot_contents_witness :
  Previous.total_value
    (previous_of_row
       {| row_date := "2025-08-18";
          columns := {["GEVO_price"%string := Num (Py.cents 100)]} |})
  = Num (Q2Qc 0).
Proof.
  refine (proj2 (proj2 (proj2 (previous_snapshot_contents
            {| row_date := "2025-08-18";
               columns := {["GEVO_price"%string := Num (Py.cents 100)]} |})))
            _).
  reflexivity.
Defined.

(** ** The row a run writes, read back *)

Lemma of_int_pos (q : Z) : (Q2Qc 0 < Py.of_int q)%Qc <-> 0 < q.
Proof.
  split.
  - intros Hpos. destruct (decide (0 < q)) as [|Hle]; [done|].
    exfalso. apply (Qclt_not_le _ _ Hpos).
    apply (of_int_le q 0). lia.
  - intros Hq. apply (Qclt_le_trans _ (Py.of_int 1)); [reflexivity|].
    apply of_int_le. lia.
Qed.

Lemma written_row_prices holdings prices total_value cash date s p :
  Previous.prices
    (previous_of_row
       {| row_date := date;
          columns := csv_columns holdings prices total_value cash |}) !! s
  = Some p <->
  s ∈ SYMBOLS /\ held holdings s = true /\
  p = default (Q2Qc 0) (prices !! s).
Proof.
  rewrite previous_prices_lookup. simpl. split.
  - intros (Hs & Hp & q & Hq & Hpos).
    destruct (csv_columns_symbol holdings prices total_value cash s Hs)
      as [Hp' Hq'].
    rewrite Hp' in Hp. rewrite Hq' in Hq.
    injection Hp as <-. injection Hq as <-.
    apply -> of_int_pos in Hpos. split; [done|]. split; [|done].
    unfold held. destruct (holdings !! s) as [v|].
    + change (0 < v) in Hpos. by apply Z.ltb_lt.
    + change (0 < 0) in Hpos. lia.
  - intros (Hs & Hheld & ->).
    destruct (csv_columns_symbol holdings prices total_value cash s Hs)
      as [Hp' Hq'].
    split; [done|]. split; [done|].
    eexists. split; [exact Hq'|]. apply <- of_int_pos.
    unfold held in Hheld. destruct (holdings !! s) as [v|]; [|done].
    change (0 < v). by apply Z.ltb_lt.
Qed.

Lemma get_previous_of_two front row lastrow :
  get_previous_day_data (Table (front ++ [row; lastrow]))
  = Some (previous_of_row row).
Proof.
  unfold get_previous_day_data. rewrite select_second_to_last.
  destruct (front ++ [row; lastrow]) as [|x l] eqn:E; [|done].
  by destruct front.
Qed.

(** The history row that a run appends, read back the way the next runs
    read it, gives the total value of the run and a price for exactly the
    symbols of [SYMBOLS] that were held: the price of the run, or zero for a
    held symbol that had no price.  With no history before the run the row
    is the previous snapshot of the next run; with earlier rows the next run
    reads the last of those, not the row just written. *)
Theorem history_row_round_trip w API_KEY :
  api_key_set (ALPHAVANTAGE_API_KEY w) = Some API_KEY ->
  let r := run_engine w API_KEY in
  let prices := run_prices w API_KEY in
  let total := (valuation (ret_holdings r) prices (ret_cash r)).2 in
  exists w' row,
    main w = Exited 0 w' /\
    portfolio_history_csv w' = append_row (portfolio_history_csv w) row /\
    Previous.total_value (previous_of_row row) = Num total /\
    (forall s p,
       Previous.prices (previous_of_row row) !! s = Some p <->
       s ∈ SYMBOLS /\ held (ret_holdings r) s = true /\
       p = default (Q2Qc 0) (prices !! s)) /\
    get_previous_day_data (portfolio_history_csv w') =
      match portfolio_history_csv w with
      | NoHistory => Some (previous_of_row row)
      | Unreadable _ => None
      | Table df => Some (previous_of_row (default row (last df)))
      end.
Proof.
  intros Hkey r prices total.
  destruct (main_exits w API_KEY Hkey) as (d & _ & Hmain).
  fold r prices total in Hmain.
  eexists _, _. split; [exact Hmain|]. simpl.
  split; [reflexivity|]. split.
  { destruct (previous_of_row_fold
                {| row_date := today w;
                   columns := csv_columns (ret_holdings r) prices total
                                (ret_cash r) |}) as (_ & _ & ->).
    simpl.
    by destruct (csv_columns_total (ret_holdings r) prices total
                   (ret_cash r)) as [-> _]. }
  split; [intros s p; apply written_row_prices|].
  destruct (portfolio_history_csv w) as [|msg|df]; try done.
  destruct df as [|r0 df _] using rev_ind; [done|].
  rewrite last_snoc. cbn [default append_row]. rewrite <- app_assoc.
  apply get_previous_of_two.
Qed.

Lemma history_row_round_trip_witness :
  let r := run_engine example_world "demo" in
  let prices := run_prices example_world "demo" in
  let total := (valuation (ret_holdings r) prices (ret_cash r)).2 in
  exists w' row,
    main example_world = Exited 0 w' /\
    portfolio_history_csv w'
    = append_row (portfolio_history_csv example_world) row /\
    Previous.total_value (previous_of_row row) = Num total /\
    (forall s p,
       Previous.prices (previous_of_row row) !! s = Some p <->
       s ∈ SYMBOLS /\ held (ret_holdings r) s = true /\
       p = default (Q2Qc 0) (prices !! s)) /\
    get_previous_day_data (portfolio_history_csv w') =
      match portfolio_history_csv example_world with
      | NoHistory => Some (previous_of_row row)
      | Unreadable _ => None
      | Table df => Some (previous_of_row (default row (last df)))
      end.
Proof.
  exact (history_row_round_trip example_world "demo" eq_refl).
Defined.

(** * Further properties of the delta engine *)

Lemma individual_loop_lookup items previous_prices
  (quantities : gmap string Z) acc m s :
  NoDup items.*1 ->
  individual_loop items previous_prices quantities acc = Ok m ->
  m !! s =
  match (list_to_map items : gmap string Qc) !! s,
        previous_prices !! s, quantities !! s with
  | Some p, Some p', Some qty => Some (change_of p p' qty)
  | _, _, _ => acc !! s
  end.
Proof.
  revert acc. induction items as [|[x p] items IH]; intros acc Hnd; simpl.
  { intros [= <-]. by rewrite lookup_empty. }
  apply NoDup_cons in Hnd as [Hx Hnd].
  assert (Hfresh : (list_to_map items : gmap string Qc) !! x = None).
  { by apply not_elem_of_list_to_map_1. }
  destruct (previous_prices !! x) as [p'|] eqn:Hp.
  - destruct (quantities !! x) as [qty|] eqn:Hq; [|done].
    intros Hloop. rewrite (IH _ Hnd Hloop).
    destruct (decide (x = s)) as [->|Hne].
    + rewrite Hfresh, lookup_insert_eq, Hp, Hq. by rewrite lookup_insert_eq.
    + by rewrite !lookup_insert_ne.
  - intros Hloop. rewrite (IH _ Hnd Hloop).
    destruct (decide (x = s)) as [->|Hne].
    + by rewrite Hfresh, lookup_insert_eq, Hp.
    + by rewrite lookup_insert_ne.
Qed.

Lemma individual_loop_raise items previous_prices
  (quantities : gmap string Z) acc e :
  individual_loop items previous_prices quantities acc = Raise e ->
  exists s (p : Qc),
    (s, p) ∈ items /\ is_Some (previous_prices !! s) /\
    quantities !! s = None /\ e = KeyError s.
Proof.
  revert acc. induction items as [|[x p] items IH]; intros acc; simpl;
    [done|].
  destruct (previous_prices !! x) as [p'|] eqn:Hp.
  - destruct (quantities !! x) as [qty|] eqn:Hq.
    + intros H. destruct (IH _ H) as (s & q & Hin & Hrest).
      exists s, q. split; [by right|done].
    + intros [= <-]. exists x, p. split; [by left|]. by rewrite Hp.
  - intros H. destruct (IH _ H) as (s & q & Hin & Hrest).
    exists s, q. split; [by right|done].
Qed.

Lemma individual_loop_ok_inv items previous_prices
  (quantities : gmap string Z) acc m s (p : Qc) :
  individual_loop items previous_prices quantities acc = Ok m ->
  (s, p) ∈ items -> is_Some (previous_prices !! s) ->
  is_Some (quantities !! s).
Proof.
  revert acc. induction items as [|[x q] items IH]; intros acc; simpl.
  { intros _ Hin. by apply elem_of_nil in Hin. }
  intros Hloop Hin Hprev.
  apply elem_of_cons in Hin as [[= -> ->]|Hin].
  - destruct Hprev as [p' Hp]. rewrite Hp in Hloop.
    destruct (quantities !! x) as [qty|]; [by eexists|done].
  - destruct (previous_prices !! x) as [p'|]; [|by eapply IH].
    destruct (quantities !! x) as [qty|]; [by eapply IH|done].
Qed.

(** The delta report has an entry exactly for the symbols priced in both
    snapshots, computed from the two prices and the current quantity, with
    the percentage set to zero when the previous price is not positive.  The
    call raises [KeyError] exactly when some symbol priced in both snapshots
    has no current quantity, and the key of the error is such a symbol. *)
Theorem daily_changes_report current_data previous_data :
  (forall d,
     calculate_daily_changes current_data (Some previous_data) = Ok d ->
     exists report,
       d = Some report /\
       (forall s,
          individual report !! s =
          match Current.prices current_data !! s,
                Previous.prices previous_data !! s,
                Current.quantities current_data !! s with
          | Some p, Some p', Some qty => Some (change_of p p' qty)
          | _, _, _ => None
          end) /\
       portfolio report =
         portfolio_delta (Current.total_value current_data)
           (Previous.total_value previous_data)) /\
  ((exists e,
      calculate_daily_changes current_data (Some previous_data) = Raise e)
   <->
   exists s,
     is_Some (Current.prices current_data !! s) /\
     is_Some (Previous.prices previous_data !! s) /\
     Current.quantities current_data !! s = None) /\
  (forall e,
     calculate_daily_changes current_data (Some previous_data) = Raise e ->
     exists s,
       e = KeyError s /\
       is_Some (Current.prices current_data !! s) /\
       is_Some (Previous.prices previous_data !! s) /\
       Current.quantities current_data !! s = None).
Proof.
  unfold calculate_daily_changes.
  destruct (individual_loop (map_to_list (Current.prices current_data))
              (Previous.prices previous_data)
              (Current.quantities current_data) ∅) as [m|e] eqn:Hloop.
  - split; [|split].
    + intros d [= <-]. eexists. split; [reflexivity|]. simpl.
      split; [|done]. intros s.
      rewrite (individual_loop_lookup _ _ _ _ _ s
                 (NoDup_fst_map_to_list _) Hloop).
      rewrite list_to_map_to_list, lookup_empty.
      destruct (Current.prices current_data !! s); [|done].
      destruct (Previous.prices previous_data !! s); [|done].
      by destruct (Current.quantities current_data !! s).
    + split; [by intros [e [=]]|].
      intros (s & [p Hp] & Hprev & Hq). exfalso.
      apply elem_of_map_to_list in Hp.
      destruct (individual_loop_ok_inv _ _ _ _ _ _ _ Hloop Hp Hprev)
        as [qty Hqty].
      congruence.
    + by intros e [=].
  - apply individual_loop_raise in Hloop as (s & p & Hin & Hprev & Hq & ->).
    apply elem_of_map_to_list in Hin.
    split; [done|]. split.
    + split; [|by eauto]. intros _. exists s. eauto.
    + intros e [= <-]. exists s. eauto.
Qed.

Lemma daily_changes_report_witness :
  let current_data :=
    Current.mk "2025-08-19" {["GEVO"%string := Py.cents 150]}
      {["GEVO"%string := 199]} (Py.cents 47850) in
  let previous_data :=
    Previous.mk {["GEVO"%string := Py.cents 100]}
      {["GEVO"%string := Py.of_int 199]} (Num (Py.cents 37900)) in
  exists report,
    Some {| individual :=
              {["GEVO"%string :=
                  change_of (Py.cents 150) (Py.cents 100) 199]};
            portfolio :=
              portfolio_delta (Py.cents 47850) (Num (Py.cents 37900)) |}
    = Some report /\
    (forall s,
       individual report !! s =
       match Current.prices current_data !! s,
             Previous.prices previous_data !! s,
             Current.quantities current_data !! s with
       | Some p, Some p', Some qty => Some (change_of p p' qty)
       | _, _, _ => None
       end) /\
    portfolio report =
      portfolio_delta (Current.total_value current_data)
        (Previous.total_value previous_data).
Proof.
  intros current_data previous_data.
  refine (proj1 (daily_changes_report current_data previous_data) _ _).
  unfold calculate_daily_changes, current_data, previous_data. simpl.
  rewrite map_to_list_singleton. simpl.
  rewrite !lookup_singleton_eq. simpl.
  by rewrite insert_empty.
Defined.

(** * Further properties of the snapshot *)

Lemma valuation_values_fold holdings prices l
  (acc : gmap string string * Qc) s :
  (foldl (valuation_step holdings prices) acc l).1 !! s =
  if decide (s ∈ l) then
    Some match holdings !! s, prices !! s with
         | Some qty, Some price =>
             if 0 <? qty then Py.format_f 2 (Py.of_int qty * price)%Qc
             else "0.00"%string
         | _, _ => "0.00"%string
         end
  else acc.1 !! s.
Proof.
  revert acc. induction l as [|x l IH]; intros acc.
  { simpl. destruct (decide (s ∈ [])) as [Hin|_]; [|done].
    by apply elem_of_nil in Hin. }
  simpl. rewrite IH. clear IH.
  destruct (decide (s ∈ l)) as [Hin|Hnot].
  { by rewrite (decide_True (P := s ∈ x :: l)) by (by right). }
  destruct (decide (x = s)) as [->|Hne].
  - rewrite (decide_True (P := s ∈ s :: l)) by (by left).
    unfold valuation_step.
    destruct (holdings !! s) as [qty|];
      [|simpl; by rewrite lookup_insert_eq].
    destruct (prices !! s) as [price|];
      [|simpl; by rewrite lookup_insert_eq].
    destruct (0 <? qty); simpl; by rewrite lookup_insert_eq.
  - rewrite (decide_False (P := s ∈ x :: l))
      by (intros [->|Hin]%elem_of_cons; done).
    unfold valuation_step.
    destruct (holdings !! x) as [qty|];
      [|simpl; by rewrite lookup_insert_ne].
    destruct (prices !! x) as [price|];
      [|simpl; by rewrite lookup_insert_ne].
    destruct (0 <? qty); simpl; by rewrite lookup_insert_ne.
Qed.

(** The snapshot [docs/latest.json] is about the held symbols only.  Its
    quantities are the holdings above zero; every symbol it prices has a
    quantity and a value, the value being the two-decimal rendering of
    quantity times price; every symbol it values is one of [SYMBOLS] and
    has a quantity, and a valued symbol without a price is valued
    ["0.00"]. *)
Theorem snapshot_is_about_held_symbols w API_KEY :
  api_key_set (ALPHAVANTAGE_API_KEY w) = Some API_KEY ->
  let r := run_engine w API_KEY in
  exists snapshot,
    snapshot_of (main w) = Some snapshot /\
    (forall s q,
       Portfolio.quantities snapshot !! s = Some q <->
       ret_holdings r !! s = Some q /\ 0 < q) /\
    (forall s p,
       Portfolio.prices snapshot !! s = Some p ->
       exists q,
         Portfolio.quantities snapshot !! s = Some q /\
         Portfolio.values snapshot !! s
         = Some (Py.format_f 2 (Py.of_int q * p)%Qc)) /\
    (forall s v,
       Portfolio.values snapshot !! s = Some v ->
       s ∈ SYMBOLS /\
       is_Some (Portfolio.quantities snapshot !! s) /\
       (Portfolio.prices snapshot !! s = None -> v = "0.00"%string)).
Proof.
  intros Hkey r.
  destruct (main_exits w API_KEY Hkey) as (d & _ & Hmain).
  fold r in Hmain. rewrite Hmain.
  eexists. split; [reflexivity|]. simpl.
  assert (Hqty : forall s q,
            positive_items (ret_holdings r) !! s = Some q <->
            ret_holdings r !! s = Some q /\ 0 < q).
  { intros s q. unfold positive_items. by rewrite map_lookup_filter_Some. }
  split; [exact Hqty|]. split.
  - intros s p Hp.
    apply held_items_lookup in Hp as [Hp (q & Hq & Hpos)].
    exists q. split; [by apply Hqty|].
    apply held_items_lookup. split; [|eauto].
    assert (Hsym : s ∈ SYMBOLS).
    { apply (fetch_prices_symbols
               (fun s => get_alpha_vantage_price w s API_KEY)).
      by exists p. }
    unfold valuation. rewrite valuation_values_fold.
    rewrite (decide_True (P := s ∈ SYMBOLS)) by done.
    fold (run_prices w API_KEY). rewrite Hq, Hp.
    apply Z.ltb_lt in Hpos. by rewrite Hpos.
  - intros s v Hv.
    apply held_items_lookup in Hv as [Hv (q & Hq & Hpos)].
    unfold valuation in Hv. rewrite valuation_values_fold in Hv.
    destruct (decide (s ∈ SYMBOLS)) as [Hin|Hnot];
      [|simpl in Hv; by rewrite lookup_empty in Hv].
    split; [done|]. split; [exists q; by apply Hqty|].
    intros Hnone. injection Hv as <-. rewrite Hq.
    destruct (run_prices w API_KEY !! s) as [price|] eqn:Hp; [|done].
    exfalso.
    assert (held_items (ret_holdings r) (run_prices w API_KEY) !! s
            = Some price) by (apply held_items_lookup; eauto).
    congruence.
Qed.

Lemma snapshot_is_about_held_symbols_witness :
  let r := run_engine example_world "demo" in
  exists snapshot,
    snapshot_of (main example_world) = Some snapshot /\
    (forall s q,
       Portfolio.quantities snapshot !! s = Some q <->
       ret_holdings r !! s = Some q /\ 0 < q) /\
    (forall s p,
       Portfolio.prices snapshot !! s = Some p ->
       exists q,
         Portfolio.quantities snapshot !! s = Some q /\
         Portfolio.values snapshot !! s
         = Some (Py.format_f 2 (Py.of_int q * p)%Qc)) /\
    (forall s v,
       Portfolio.values snapshot !! s = Some v ->
       s ∈ SYMBOLS /\
       is_Some (Portfolio.quantities snapshot !! s) /\
       (Portfolio.prices snapshot !! s = None -> v = "0.00"%string)).
Proof.
  exact (snapshot_is_about_held_symbols example_world "demo" eq_refl).
Defined.

(** * Further properties of the report *)

Lemma report_positions_fold holdings prices l lines :
  exists positions,
    foldl (report_position holdings prices) lines l = lines ++ positions /\
    length positions
    = length (filter (fun s => s ∈ held_and_priced holdings prices) l) /\
    (forall line, line ∈ positions -> exists rest, line = "- " +:+ rest).
Proof.
  revert lines. induction l as [|x l IH]; intros lines.
  { exists []. rewrite app_nil_r. repeat split; try done.
    intros line Hin. by apply elem_of_nil in Hin. }
  simpl. rewrite filter_cons.
  destruct (decide (x ∈ held_and_priced holdings prices)) as [Hin|Hnot].
  - apply elem_of_held_and_priced in Hin as (qty & price & Hq & Hpos & Hp).
    unfold report_position at 2. rewrite Hq, Hp.
    apply Z.ltb_lt in Hpos. rewrite Hpos.
    destruct (IH (lines ++
                  ["- " +:+ x +:+ ": close " +:+ Py.format_f 4 price
                   +:+ ", qty " +:+ Py.str_int qty
                   +:+ ", value $"
                   +:+ Py.format_f 2 (Py.of_int qty * price)%Qc]))
      as (positions & -> & Hlen & Hshape).
    eexists (_ :: positions). rewrite <- app_assoc.
    split; [reflexivity|]. split; [simpl; by rewrite Hlen|].
    intros line [->|Hl]%elem_of_cons; [by eexists|by apply Hshape].
  - assert (report_position holdings prices lines x = lines) as ->.
    { unfold report_position.
      destruct (holdings !! x) as [qty|] eqn:Hq; [|done].
      destruct (0 <? qty) eqn:Hpos; [|done].
      destruct (prices !! x) as [price|] eqn:Hp; [|done].
      exfalso. apply Hnot, elem_of_held_and_priced.
      apply Z.ltb_lt in Hpos. eauto. }
    apply IH.
Qed.

Lemma report_actions_fold (actions lines : list string) :
  foldl (fun report_lines action => report_lines ++ ["- " +:+ action])
    lines actions
  = lines ++ ((fun action => "- " +:+ action) <$> actions).
Proof.
  revert lines. induction actions as [|a actions IH]; intros lines; simpl.
  - by rewrite app_nil_r.
  - by rewrite IH, <- app_assoc.
Qed.

(** The markdown report lists every action of the run, in execution order,
    as its last lines, under a heading that is there exactly when at least
    one action executed.  Before that it has the three header lines, one
    line for each symbol of [SYMBOLS] that is held and priced, and the cash
    and total lines. *)
Theorem report_lists_every_action current_date holdings prices cash
  total_value claude_actions :
  exists body,
    report_lines current_date holdings prices cash total_value
      claude_actions
    = body ++
      (match claude_actions with
       | [] => []
       | _ :: _ =>
           [EmptyString; "## Recent Actions"%string; EmptyString] ++
           ((fun action => "- " +:+ action) <$> claude_actions)
       end) /\
    ("## Recent Actions"%string ∉ body) /\
    length body
    = (6 + length (filter (fun s => s ∈ held_and_priced holdings prices)
                     SYMBOLS))%nat.
Proof.
  unfold report_lines.
  destruct (report_positions_fold holdings prices SYMBOLS
              ["# Portfolio Report"%string;
               "**As of (latest close)**: " +:+ current_date;
               EmptyString])
    as (positions & -> & Hlen & Hshape).
  exists (["# Portfolio Report"%string;
           "**As of (latest close)**: " +:+ current_date;
           EmptyString] ++ positions ++
          [EmptyString;
           "Cash: $" +:+ Py.format_f 2 cash;
           "**Total value**: $" +:+ Py.format_f 2 total_value]).
  split; [|split].
  - destruct claude_actions as [|a actions]; cbn [truthy].
    + rewrite app_nil_r. by rewrite <- !app_assoc.
    + rewrite report_actions_fold. by rewrite <- !app_assoc.
  - intros Hin. simpl in Hin.
    repeat (apply elem_of_cons in Hin as [Hin|Hin]; [discriminate Hin|]).
    apply elem_of_app in Hin as [Hin|Hin].
    + apply Hshape in Hin as [rest Hin]. discriminate Hin.
    + repeat (apply elem_of_cons in Hin as [Hin|Hin]; [discriminate Hin|]).
      by apply elem_of_nil in Hin.
  - rewrite !length_app, Hlen. simpl. lia.
Qed.
